(** * OpenClaw service worker (sw.js): routing, caching strategies, cache lifecycle

    A shallow embedding of [src/sw.js].  The worker's handlers and its three
    strategy executors are written in a small state/exception/trace monad
    over the browser's CacheStorage.

    What belongs to the platform and is taken as given:
    - [fetch] is an oracle from request URL to either a network error (the
      promise rejects) or a response (any status; [fetch] never rejects on a
      non-2xx status);
    - CacheStorage is an ordered collection of named caches, each a finite
      map from request URL to response.  Store operations are total (quota
      and store-unavailable failures, [Vary] matching, partial-content and
      non-GET rejections of [put] are outside the model);
    - [cache.add(url)] is fetch, reject unless [response.ok], then put;
      [cache.addAll(urls)] is the batch operation of the Cache API: it
      rejects at the first URL that is not http(s), rejects unless every
      response is ok and not a 206, rejects a list that names the same
      resource twice, and puts nothing at all when it rejects (responses
      carry no [Vary] header here, so its rejection of [Vary: *] does not
      arise);
    - a request carries its absolute URL; a URL string handed to
      [cache.add], [cache.addAll] or [caches.match] is resolved against the
      worker's location by the platform, which is the parameter [resolve];
      cache keys are resolved URLs;
    - promises are run to completion in program order; a promise nobody
      awaits is run in place and its rejection is recorded, not thrown. *)

From stdpp Require Import strings gmap list.
From Stdlib Require Import ZArith Ascii.

(** ** Responses and requests *)

Record Response := mkResponse {
  status : Z;
  contentType : option string;
  body : string
}.

(** [response.ok]: the status is in the range 200-299. *)
Definition ok (r : Response) : bool :=
  (200 <=? status r)%Z && (status r <=? 299)%Z.

(** [new Response(body, { status, headers })] with a string body: the status
    defaults to 200, and a string body gets a text/plain content type unless
    the init headers carry one. *)
Definition newResponse (b : string) (st : option Z) (ct : option string) : Response :=
  {| status := default 200%Z st;
     contentType := Some (default "text/plain;charset=UTF-8" ct);
     body := b |}.

(** A request as the fetch handler reads it: [request.url], the
    [hostname] and [pathname] of [new URL(request.url)], and
    [request.headers.get("accept")]. *)
Record Request := mkRequest {
  url : string;
  hostname : string;
  pathname : string;
  accept : option string
}.

Inductive FetchOutcome :=
| NetworkError
| Responded (r : Response).

(** ** JavaScript string methods used by the worker *)

(** [hay.startsWith(needle)] *)
Definition startsWith (hay needle : string) : bool := String.prefix needle hay.

(** [hay.includes(needle)] *)
Fixpoint includes (hay needle : string) : bool :=
  String.prefix needle hay ||
  match hay with
  | EmptyString => false
  | String _ rest => includes rest needle
  end.

(** [hay] ends with [needle]: what a regular expression anchored by [$]
    tests for a literal. *)
Fixpoint endsWith (hay needle : string) : bool :=
  String.eqb hay needle ||
  match hay with
  | EmptyString => false
  | String _ rest => endsWith rest needle
  end.

(** A URL whose scheme is http or https. *)
Definition httpScheme (u : string) : bool :=
  startsWith u "http:" || startsWith u "https:".

(** A URL without its fragment. *)
Fixpoint stripFragment (u : string) : string :=
  match u with
  | EmptyString => EmptyString
  | String c rest =>
      if Ascii.eqb c (ascii_of_nat 35) then EmptyString
      else String c (stripFragment rest)
  end.

(** The requests of a list that come before the first one that is not
    http(s). *)
Fixpoint started (requests : list string) : list string :=
  match requests with
  | [] => []
  | u :: rest => if httpScheme u then u :: started rest else []
  end.

(** ** Cache storage *)

Abbreviation Cache := (gmap string Response).
Abbreviation CacheStorage := (list (string * gmap string Response)).

Fixpoint storage_lookup (name : string) (s : CacheStorage) : option Cache :=
  match s with
  | [] => None
  | (n, c) :: rest => if decide (n = name) then Some c else storage_lookup name rest
  end.

(** The entry stored for [key] in the cache called [name]. *)
Definition entry (name key : string) (s : CacheStorage) : option Response :=
  c ← storage_lookup name s; c !! key.

(** [caches.match]: the caches are searched in creation order and the first
    one holding the key answers. *)
Fixpoint storage_match (key : string) (s : CacheStorage) : option Response :=
  match s with
  | [] => None
  | (_, c) :: rest =>
      match c !! key with
      | Some r => Some r
      | None => storage_match key rest
      end
  end.

(** [caches.open]: an absent cache is created empty, after the others. *)
Definition storage_open (name : string) (s : CacheStorage) : CacheStorage :=
  match storage_lookup name s with
  | Some _ => s
  | None => s ++ [(name, ∅)]
  end.

(** [cache.put] through a handle on the cache called [name]. *)
Fixpoint storage_put (name key : string) (r : Response) (s : CacheStorage) : CacheStorage :=
  match s with
  | [] => []
  | (n, c) :: rest =>
      if decide (n = name) then (n, <[key := r]> c) :: rest
      else (n, c) :: storage_put name key r rest
  end.

Definition storage_delete (name : string) (s : CacheStorage) : CacheStorage :=
  filter (λ p, p.1 ≠ name) s.

(** ** Effects *)

Inductive Error :=
| NetworkFailure
| BadStatus
| BadScheme
| InvalidState.

Inductive Effect :=
| Fetched (u : string)
| Put (cacheName key : string) (r : Response)
| Deleted (cacheName : string)
| Logged (parts : list string)
| Warned (parts : list string)
| SkipWaiting
| ClientsClaimed
| UnhandledRejection (e : Error).

Inductive Result (A : Type) :=
| Ok (a : A)
| Throw (e : Error).
Arguments Ok {A} a.
Arguments Throw {A} e.

(** A computation reads and updates the cache storage, may throw, and
    emits the effects it performed, oldest first. *)
Definition M (A : Type) : Type :=
  CacheStorage → Result A * CacheStorage * list Effect.

Definition resultOf {A} (x : Result A * CacheStorage * list Effect) : Result A := x.1.1.
Definition storageOf {A} (x : Result A * CacheStorage * list Effect) : CacheStorage := x.1.2.
Definition effectsOf {A} (x : Result A * CacheStorage * list Effect) : list Effect := x.2.

#[global] Instance M_ret : MRet M := λ A a s, (Ok a, s, []).

#[global] Instance M_bind : MBind M := λ A B f m s,
  match m s with
  | (Ok a, s1, t1) =>
      match f a s1 with
      | (r, s2, t2) => (r, s2, t1 ++ t2)
      end
  | (Throw e, s1, t1) => (Throw e, s1, t1)
  end.

#[global] Instance M_fmap : FMap M := λ A B f m, a ← m; mret (f a).

Definition throw {A} (e : Error) : M A := λ s, (Throw e, s, []).

(** [try { m } catch { h }] *)
Definition tryCatch {A} (m : M A) (h : Error → M A) : M A := λ s,
  match m s with
  | (Ok a, s1, t1) => (Ok a, s1, t1)
  | (Throw e, s1, t1) =>
      match h e s1 with
      | (r, s2, t2) => (r, s2, t1 ++ t2)
      end
  end.

Definition emit (e : Effect) : M unit := λ s, (Ok tt, s, [e]).

(** A promise chain that nobody awaits and that has no rejection handler. *)
Definition detached {A} (m : M A) : M unit := λ s,
  match m s with
  | (Ok _, s1, t1) => (Ok tt, s1, t1)
  | (Throw e, s1, t1) => (Ok tt, s1, t1 ++ [UnhandledRejection e])
  end.

(** [Promise.all]: every promise of the list has been started and runs; the
    aggregate rejects with the first rejection. *)
Fixpoint promiseAll {A} (ms : list (M A)) : M (list A) := λ s,
  match ms with
  | [] => (Ok [], s, [])
  | m :: rest =>
      match m s with
      | (r, s1, t1) =>
          match promiseAll rest s1 with
          | (rs, s2, t2) =>
              (match r, rs with
               | Throw e, _ => Throw e
               | Ok _, Throw e => Throw e
               | Ok a, Ok l => Ok (a :: l)
               end, s2, t1 ++ t2)
          end
      end
  end.

(** [Promise.allSettled]: as above, but the aggregate always fulfils, with
    the outcome of each promise. *)
Fixpoint allSettled {A} (ms : list (M A)) : M (list (Result A)) := λ s,
  match ms with
  | [] => (Ok [], s, [])
  | m :: rest =>
      match m s with
      | (r, s1, t1) =>
          match allSettled rest s1 with
          | (rs, s2, t2) =>
              (Ok (r :: match rs with Ok l => l | Throw _ => [] end), s2, t1 ++ t2)
          end
      end
  end.

(** [for (const x of xs) await f(x)] *)
Fixpoint forEach {A} (f : A → M unit) (xs : list A) : M unit :=
  match xs with
  | [] => mret tt
  | x :: rest => f x;; forEach f rest
  end.

(** ** The worker *)

Definition CACHE_NAME : string := "openclaw-v2".
Definition RUNTIME_CACHE : string := "openclaw-runtime-v2".

Definition PRECACHE_URLS : list string :=
  [ "/";
    "/index.html";
    "/static/js/main.chunk.js";
    "/static/js/bundle.js";
    "/manifest.json";
    "https://fonts.googleapis.com/css2?family=Space+Mono:ital,wght@0,400;0,700;1,400&family=Syne:wght@400;600;700;800&display=swap" ].

Definition dq : string := String (ascii_of_nat 34) EmptyString.
Definition newline : string := String (ascii_of_nat 10) EmptyString.

(** The template literal of [offlinePage], line by line. *)
Definition offlinePage : string :=
  String.concat newline
  [ "<!DOCTYPE html>";
    "<html>";
    "<head>";
    "  <meta charset=" +:+ dq +:+ "utf-8" +:+ dq +:+ ">";
    "  <meta name=" +:+ dq +:+ "viewport" +:+ dq +:+ " content=" +:+ dq
       +:+ "width=device-width, initial-scale=1" +:+ dq +:+ ">";
    "  <title>OpenClaw AI — Offline</title>";
    "  <style>";
    "    body { background: #080C10; color: #E6EDF3; font-family: sans-serif;";
    "           display: flex; align-items: center; justify-content: center;";
    "           height: 100vh; margin: 0; text-align: center; }";
    "    .icon { font-size: 64px; margin-bottom: 16px; }";
    "    h1 { font-size: 22px; margin: 0 0 8px; }";
    "    p { color: #7D8590; font-size: 14px; }";
    "  </style>";
    "</head>";
    "<body>";
    "  <div>";
    "    <div class=" +:+ dq +:+ "icon" +:+ dq +:+ ">🦾</div>";
    "    <h1>You're offline</h1>";
    "    <p>OpenClaw needs a connection to reach the AI.<br>Check your network and try again.</p>";
    "  </div>";
    "</body>";
    "</html>" ].

(** Messages of the control channel, by [event.data?.type]. *)
Inductive MessageData :=
| SKIP_WAITING
| CACHE_URLS (urls : list string)
| OtherMessage.

Section Worker.

(** The network, as seen by [fetch]. *)
Variable network : string → FetchOutcome.

(** [new Request(u).url]: a URL string resolved against the worker's
    location.  A string that does not parse as a URL stands for no http(s)
    URL. *)
Variable resolve : string → string.

(** *** Platform operations *)

Definition fetch (u : string) : M Response := λ s,
  match network u with
  | NetworkError => (Throw NetworkFailure, s, [Fetched u])
  | Responded r => (Ok r, s, [Fetched u])
  end.

Definition cachesOpen (name : string) : M string := λ s,
  (Ok name, storage_open name s, []).

Definition cachesMatch (key : string) : M (option Response) := λ s,
  (Ok (storage_match key s), s, []).

Definition cachesKeys : M (list string) := λ s, (Ok (s.*1), s, []).

Definition cachesDelete (name : string) : M bool := λ s,
  (Ok (bool_decide (is_Some (storage_lookup name s))), storage_delete name s, [Deleted name]).

Definition cacheMatch (cache key : string) : M (option Response) := λ s,
  (Ok (entry cache key s), s, []).

Definition cachePut (cache key : string) (r : Response) : M unit := λ s,
  (Ok tt, storage_put cache key r s, [Put cache key r]).

Definition cacheAdd (cache u : string) : M unit :=
  response ← fetch (resolve u);
  if ok response then cachePut cache (resolve u) response else throw BadStatus.

(** [cache.addAll(urls)].  The requests are made in order, and the first one
    that is not http(s) rejects the batch and aborts the fetches started
    before it.  Otherwise every response must be ok and not partial content;
    then the batch of puts is run, which rejects, leaving the cache as it
    was, when two of its requests have the same URL up to the fragment. *)
Definition cacheAddAll (cache : string) (urls : list string) : M unit :=
  let requests := map resolve urls in
  if forallb httpScheme requests then
    responses ← promiseAll
      (map (λ u, response ← fetch u;
                 if ok response && negb (status response =? 206)%Z
                 then mret (u, response) else throw BadStatus) requests);
    if bool_decide (NoDup (map stripFragment requests))
    then forEach (λ p, cachePut cache p.1 p.2) responses
    else throw InvalidState
  else
    forEach (λ u, emit (Fetched u)) (started requests);;
    throw BadScheme.

Definition skipWaiting : M unit := emit SkipWaiting.
Definition clientsClaim : M unit := emit ClientsClaimed.
Definition consoleLog (parts : list string) : M unit := emit (Logged parts).
Definition consoleWarn (parts : list string) : M unit := emit (Warned parts).

(** *** install *)

Definition onInstall (manifest : list string) : M unit :=
  cache ← cachesOpen CACHE_NAME;
  consoleLog ["[SW] Precaching app shell"];;
  allSettled
    (map (λ u, tryCatch (cacheAdd cache u)
                 (λ e, consoleWarn ["[SW] Could not cache:"; u])) manifest);;
  skipWaiting.

(** *** activate *)

Definition staleName (name : string) : bool :=
  bool_decide (name ≠ CACHE_NAME) && bool_decide (name ≠ RUNTIME_CACHE).

Definition onActivate : M unit :=
  cacheNames ← cachesKeys;
  promiseAll
    (map (λ name, consoleLog ["[SW] Deleting old cache:"; name];;
                  cachesDelete name)
         (List.filter staleName cacheNames));;
  clientsClaim.

(** *** strategies *)

Definition cacheFirst (request : Request) (cacheName : string) : M Response :=
  cached ← cachesMatch (url request);
  match cached with
  | Some c => mret c
  | None =>
      tryCatch
        (response ← fetch (url request);
         (if ok response then
            cache ← cachesOpen cacheName;
            cachePut cache (url request) response
          else mret tt);;
         mret response)
        (λ _, mret (newResponse "Offline" (Some 503%Z) None))
  end.

Definition networkFirst (request : Request) (cacheName : string) : M Response :=
  tryCatch
    (response ← fetch (url request);
     (if ok response then
        cache ← cachesOpen cacheName;
        cachePut cache (url request) response
      else mret tt);;
     mret response)
    (λ _,
       cached ← cachesMatch (url request);
       match cached with
       | Some c => mret c
       | None =>
           offlineFallback ← cachesMatch (resolve "/");
           mret (match offlineFallback with
                 | Some r => r
                 | None => newResponse offlinePage None (Some "text/html")
                 end)
       end).

Definition staleWhileRevalidate (request : Request) (cacheName : string) : M Response :=
  cache ← cachesOpen cacheName;
  cached ← cacheMatch cache (url request);
  networkPromise ←
    tryCatch
      (response ← fetch (url request);
       (if ok response then cachePut cache (url request) response else mret tt);;
       mret (Some response))
      (λ _, mret None);
  mret (match cached with
        | Some c => c
        | None =>
            match networkPromise with
            | Some r => r
            | None => newResponse "" (Some 503%Z) None
            end
        end).

(** *** fetch *)

Definition acceptsHtml (request : Request) : bool :=
  match accept request with
  | Some a => includes a "text/html"
  | None => false
  end.

Definition isFontHost (request : Request) : bool :=
  String.eqb (hostname request) "fonts.googleapis.com"
  || String.eqb (hostname request) "fonts.gstatic.com".

Definition isScriptOrStyle (request : Request) : bool :=
  endsWith (pathname request) ".js" || endsWith (pathname request) ".css".

(** The fetch handler; [None] when it returns without [respondWith], so
    that the browser handles the request itself. *)
Definition onFetch (request : Request) : M (option Response) :=
  if String.eqb (hostname request) "api.anthropic.com" then mret None
  else if negb (startsWith (url request) "http") then mret None
  else if isFontHost request then
    Some <$> cacheFirst request CACHE_NAME
  else if acceptsHtml request then
    Some <$> networkFirst request CACHE_NAME
  else if isScriptOrStyle request then
    Some <$> staleWhileRevalidate request RUNTIME_CACHE
  else
    Some <$> networkFirst request RUNTIME_CACHE.

(** *** message *)

Definition onMessage (data : MessageData) : M unit :=
  (match data with SKIP_WAITING => skipWaiting | _ => mret tt end);;
  match data with
  | CACHE_URLS urls =>
      detached (cache ← cachesOpen RUNTIME_CACHE; cacheAddAll cache urls)
  | _ => mret tt
  end.

End Worker.

(** The strategy class the fetch handler's chain of tests assigns. *)
Inductive StrategyClass := BYPASS | FONT | DOCUMENT | STATIC_ASSET | DEFAULT.

Definition classify (request : Request) : StrategyClass :=
  if String.eqb (hostname request) "api.anthropic.com" then BYPASS
  else if negb (startsWith (url request) "http") then BYPASS
  else if isFontHost request then FONT
  else if acceptsHtml request then DOCUMENT
  else if isScriptOrStyle request then STATIC_ASSET
  else DEFAULT.

(** ** Observations on effect traces *)

(** The outbound network calls of a trace. *)
Definition fetches (t : list Effect) : list string :=
  omap (λ e, match e with Fetched u => Some u | _ => None end) t.

(** The store writes of a trace. *)
Definition puts (t : list Effect) : list (string * string * Response) :=
  omap (λ e, match e with Put n k r => Some (n, k, r) | _ => None end) t.

(** The store deletions of a trace. *)
Definition deletions (t : list Effect) : list string :=
  omap (λ e, match e with Deleted n => Some n | _ => None end) t.

(** Every stored response is a successful one. *)
Definition allStoredOk (s : CacheStorage) : Prop :=
  Forall (λ p, map_Forall (λ _ r, ok r = true) p.2) s.

(** A URL whose fetch yields a response the cache accepts. *)
Definition fetchedOk (network : string → FetchOutcome) (u : string) : bool :=
  match network u with
  | Responded r => ok r
  | NetworkError => false
  end.

(** A URL whose fetch yields a response [cache.addAll] accepts. *)
Definition batchOk (network : string → FetchOutcome) (u : string) : bool :=
  match network u with
  | Responded r => ok r && negb (status r =? 206)%Z
  | NetworkError => false
  end.

(** A list of requests [cache.addAll] stores: all http(s), all answered by
    a response it accepts, no two for the same URL up to the fragment. *)
Definition batchAccepted (network : string → FetchOutcome) (requests : list string)
  : bool :=
  forallb httpScheme requests && forallb (batchOk network) requests
  && bool_decide (NoDup (map stripFragment requests)).

(** The (key, response) pairs a batch of URLs contributes to a cache. *)
Definition stored (network : string → FetchOutcome) (urls : list string)
  : list (string * Response) :=
  omap (λ u, match network u with
             | Responded r => if ok r then Some (u, r) else None
             | NetworkError => None
             end) urls.

(** Writing a batch of pairs into the cache called [name], in order. *)
Definition putAll (name : string) (ps : list (string * Response)) (s : CacheStorage)
  : CacheStorage :=
  foldl (λ acc p, storage_put name p.1 p.2 acc) s ps.

(** Markers of a reference to a resource outside the document. *)
Definition externalMarkers : list string :=
  ["http:"; "https:"; "//"; "src="; "href="; "url("; "@import"; "<script"; "<link"; "<img"; "<iframe"].

Definition selfContained (doc : string) : bool :=
  forallb (λ m, negb (includes doc m)) externalMarkers.

(** The three strategy executors. *)
Definition executors (network : string → FetchOutcome) (resolve : string → string)
  : list (Request → string → M Response) :=
  [cacheFirst network; networkFirst network resolve; staleWhileRevalidate network].

(** ** Responses, traces and storages the statements speak of *)

(** The three responses the executors synthesize. *)
Definition offline503 : Response := newResponse "Offline" (Some 503%Z) None.
Definition empty503 : Response := newResponse "" (Some 503%Z) None.
Definition offlineDocument : Response := newResponse offlinePage None (Some "text/html").

(** What [networkFirst] answers once the network has failed. *)
Definition networkFirstFallback (resolve : string → string) (request : Request)
    (s : CacheStorage) : Response :=
  match storage_match (url request) s with
  | Some c => c
  | None =>
      match storage_match (resolve "/") s with
      | Some root => root
      | None => offlineDocument
      end
  end.

(** The shapes an execution of a strategy can take, as far as the stores
    are concerned: nothing written (the target cache possibly opened), or
    one successful response written under the request's key. *)
Inductive WriteShape (network : string → FetchOutcome) (request : Request)
    (cacheName : string) (s : CacheStorage)
  : CacheStorage → list Effect → Prop :=
| NoWrite s' t :
    s' = s ∨ s' = storage_open cacheName s →
    puts t = [] →
    WriteShape network request cacheName s s' t
| OneWrite r t :
    network (url request) = Responded r →
    ok r = true →
    puts t = [(cacheName, url request, r)] →
    WriteShape network request cacheName s
      (storage_put cacheName (url request) r (storage_open cacheName s)) t.

(** Deleting the caches called [names], in order. *)
Definition deleteAll (names : list string) (s : CacheStorage) : CacheStorage :=
  foldl (λ acc n, storage_delete n acc) s names.

(** The effects of the activate handler's deletions. *)
Definition deleteTrace (names : list string) : list Effect :=
  flat_map (λ n, [Logged ["[SW] Deleting old cache:"; n]; Deleted n]) names.

(** The effects of one guarded [cache.add(url)] of the install handler. *)
Definition addTrace (network : string → FetchOutcome) (resolve : string → string)
    (cache u : string) : list Effect :=
  match network (resolve u) with
  | Responded r =>
      if ok r then [Fetched (resolve u); Put cache (resolve u) r]
      else [Fetched (resolve u); Warned ["[SW] Could not cache:"; u]]
  | NetworkError => [Fetched (resolve u); Warned ["[SW] Could not cache:"; u]]
  end.

(** The events the worker listens to that touch the cache storage. *)
Inductive WorkerEvent :=
| InstallEvent (manifest : list string)
| ActivateEvent
| FetchEvent (request : Request)
| MessageEvent (data : MessageData).

(** The storage a handler leaves behind. *)
Definition storageAfter (network : string → FetchOutcome) (resolve : string → string)
    (ev : WorkerEvent) (s : CacheStorage) : CacheStorage :=
  match ev with
  | InstallEvent manifest => storageOf (onInstall network resolve manifest s)
  | ActivateEvent => storageOf (onActivate s)
  | FetchEvent request => storageOf (onFetch network resolve request s)
  | MessageEvent data => storageOf (onMessage network resolve data s)
  end.

(** The storages the worker produces on its own, from an empty storage, the
    network being arbitrary at each event. *)
Inductive WorkerMade : CacheStorage → Prop :=
| made_empty : WorkerMade []
| made_step network resolve ev s :
    WorkerMade s → WorkerMade (storageAfter network resolve ev s).

(** ** Push notifications *)

(** The parsed payload of a push event, [event.data.json()]: each of
    [title], [body] and [url] is a string or is absent.  Data that does not
    parse, and fields holding other JSON values, are outside this model. *)
Record PushData := mkPushData {
  pushTitle : option string;
  pushBody : option string;
  pushUrl : option string
}.

(** The notification handed to [showNotification]: its title, the options
    the handler sets, and [data.url]. *)
Record Notification := mkNotification {
  notifTitle : string;
  notifBody : string;
  notifIcon : string;
  notifBadge : string;
  notifTag : string;
  notifRenotify : bool;
  notifUrl : string
}.

(** [v || d] for a value that is a string or undefined: the empty string
    is falsy. *)
Definition orDefault (v : option string) (d : string) : string :=
  match v with
  | Some EmptyString => d
  | Some x => x
  | None => d
  end.

(** The push handler; [eventData] is [None] when [event.data] is null or
    parses to null, so that [data] is the empty object. *)
Definition onPush (eventData : option PushData) : Notification :=
  let data := default (mkPushData None None None) eventData in
  {| notifTitle := orDefault (pushTitle data) "OpenClaw AI";
     notifBody := orDefault (pushBody data) "You have a new message";
     notifIcon := "/icons/icon-192.png";
     notifBadge := "/icons/badge-72.png";
     notifTag := "openclaw-notification";
     notifRenotify := true;
     notifUrl := orDefault (pushUrl data) "/" |}.

Inductive NotificationAction :=
| CloseNotification
| OpenWindow (u : string).

(** The notificationclick handler, for a notification carrying [data.url]. *)
Definition onNotificationClick (n : Notification) : list NotificationAction :=
  [CloseNotification; OpenWindow (orDefault (Some (notifUrl n)) "/")].

(** ** Further notions the statements speak of *)

(** The requests the fetch handler leaves to the browser. *)
Definition bypassed (request : Request) : bool :=
  String.eqb (hostname request) "api.anthropic.com"
  || negb (startsWith (url request) "http").

(** The cache the fetch handler gives to the executor of each class. *)
Definition storeFor (c : StrategyClass) : option string :=
  match c with
  | BYPASS => None
  | FONT | DOCUMENT => Some CACHE_NAME
  | STATIC_ASSET | DEFAULT => Some RUNTIME_CACHE
  end.

(** The name of the first cache, in creation order, that holds [key]:
    the cache [caches.match] answers from. *)
Fixpoint holder (key : string) (s : CacheStorage) : option string :=
  match s with
  | [] => None
  | (n, c) :: rest =>
      match c !! key with
      | Some _ => Some n
      | None => holder key rest
      end
  end.

(** A run of the worker: events in order, each with the network and the URL
    resolution of its time. *)
Definition runEvents
    (events : list ((string → FetchOutcome) * (string → string) * WorkerEvent))
    (s : CacheStorage) : CacheStorage :=
  foldl (λ acc e, storageAfter e.1.1 e.1.2 e.2 acc) s events.

(** The cache names of the current generation. *)
Definition currentName (name : string) : Prop :=
  name = CACHE_NAME ∨ name = RUNTIME_CACHE.

(** A storage whose caches have distinct names, all of the current
    generation. *)
Definition twoStores (s : CacheStorage) : Prop :=
  NoDup (s.*1) ∧ Forall currentName (s.*1).

(** ** Sample requests, responses and networks *)

Definition fontRequest : Request :=
  mkRequest "https://fonts.gstatic.com/s/syne/v22/syne.woff2" "fonts.gstatic.com"
            "/s/syne/v22/syne.woff2" (Some "*/*").

Definition pageRequest : Request :=
  mkRequest "https://openclaw.app/chat" "openclaw.app" "/chat"
            (Some "text/html,application/xhtml+xml").

Definition dataRequest : Request :=
  mkRequest "https://openclaw.app/icons/icon-192.png" "openclaw.app"
            "/icons/icon-192.png" (Some "image/png,image/*").

Definition scriptRequest : Request :=
  mkRequest "https://openclaw.app/static/js/bundle.js" "openclaw.app"
            "/static/js/bundle.js" (Some "*/*").

Definition fontFile : Response := mkResponse 200 (Some "font/woff2") "wOF2".
Definition notFound : Response := mkResponse 404 (Some "text/plain") "Not Found".
Definition homeDocument : Response := mkResponse 200 (Some "text/html") "<html>OpenClaw</html>".
Definition jsonRoot : Response := mkResponse 200 (Some "application/json") "{}".
Definition bundle : Response := mkResponse 200 (Some "text/javascript") "main()".

Definition offlineNetwork : string → FetchOutcome := λ _, NetworkError.
Definition notFoundNetwork : string → FetchOutcome := λ _, Responded notFound.
Definition fontNetwork : string → FetchOutcome := λ _, Responded fontFile.

(** URL resolution for a worker served from [https://openclaw.app/sw.js]:
    a path-absolute URL gets the origin in front, an absolute one stays. *)
Definition resolveApp (u : string) : string :=
  if startsWith u "/" then "https://openclaw.app" +:+ u else u.

(** The root answers with JSON, everything else is unreachable. *)
Definition jsonRootNetwork : string → FetchOutcome := λ u,
  if String.eqb u "https://openclaw.app/" then Responded jsonRoot else NetworkError.

(** Only [/b] is unreachable. *)
Definition flakyNetwork : string → FetchOutcome := λ u,
  if String.eqb u "https://openclaw.app/b" then NetworkError else Responded bundle.

Definition shellStorage : CacheStorage :=
  [(CACHE_NAME, {[ "https://openclaw.app/" := homeDocument ]})].
Definition fontStorage : CacheStorage := [(CACHE_NAME, {[ url fontRequest := fontFile ]})].
Definition scriptStorage : CacheStorage := [(RUNTIME_CACHE, {[ url scriptRequest := bundle ]})].

Definition oldBundle : Response := mkResponse 200 (Some "text/javascript") "old()".
Definition bundleNetwork : string → FetchOutcome := λ _, Responded bundle.

(** A storage in which a cache of the previous generation still holds the
    page. *)
Definition previousStorage : CacheStorage :=
  [("openclaw-v1", {[ url pageRequest := homeDocument ]}); (CACHE_NAME, ∅)].

Definition staleScriptStorage : CacheStorage :=
  [(RUNTIME_CACHE, {[ url scriptRequest := oldBundle ]})].

Definition framedRequest : Request :=
  mkRequest "https://api.anthropic.com/v1/messages" "api.anthropic.com"
            "/v1/messages" (Some "text/html").

(** ** Cache storage lemmas *)

Section StorageFacts.
Implicit Types (s : CacheStorage) (name key : string) (r : Response).

Lemma storage_lookup_app name s s' :
  storage_lookup name (s ++ s') =
  match storage_lookup name s with
  | Some c => Some c
  | None => storage_lookup name s'
  end.
Proof.
  induction s as [|[n c] s IH]; simpl; [done|].
  by case_decide.
Qed.

Lemma storage_match_app key s s' :
  storage_match key (s ++ s') =
  match storage_match key s with
  | Some r => Some r
  | None => storage_match key s'
  end.
Proof.
  induction s as [|[n c] s IH]; simpl; [done|].
  by destruct (c !! key).
Qed.

Lemma storage_match_open key name s :
  storage_match key (storage_open name s) = storage_match key s.
Proof.
  unfold storage_open. destruct (storage_lookup name s); [done|].
  rewrite storage_match_app. simpl. rewrite lookup_empty.
  by destruct (storage_match key s).
Qed.

Lemma storage_lookup_open name s :
  is_Some (storage_lookup name (storage_open name s)).
Proof.
  unfold storage_open. destruct (storage_lookup name s) eqn:E.
  - rewrite E. eauto.
  - rewrite storage_lookup_app, E. simpl. rewrite decide_True by done. eauto.
Qed.

Lemma entry_open name' key name s :
  entry name' key (storage_open name s) = entry name' key s.
Proof.
  unfold entry, storage_open. destruct (storage_lookup name s) eqn:E; [done|].
  rewrite storage_lookup_app. destruct (storage_lookup name' s); [done|].
  simpl. case_decide; simpl; [|done]. apply lookup_empty.
Qed.

Lemma storage_lookup_put name' name key r s :
  storage_lookup name' (storage_put name key r s) =
  if decide (name' = name) then <[key := r]> <$> storage_lookup name s
  else storage_lookup name' s.
Proof.
  induction s as [|[n c] s IH]; simpl.
  - by case_decide.
  - destruct (decide (n = name)) as [->|Hn]; simpl.
    + destruct (decide (name = name')) as [->|]; simpl.
      * by rewrite decide_True.
      * by rewrite decide_False by done.
    + destruct (decide (n = name')) as [->|]; simpl.
      * by rewrite decide_False by done.
      * exact IH.
Qed.

Lemma entry_put name' key' name key r s :
  entry name' key' (storage_put name key r s) =
  if decide (name' = name ∧ key' = key)
  then (storage_lookup name s ≫= λ _, Some r)
  else entry name' key' s.
Proof.
  unfold entry. rewrite storage_lookup_put.
  destruct (decide (name' = name)) as [->|Hn].
  - destruct (storage_lookup name s) as [c|]; simpl.
    + destruct (decide (key' = key)) as [->|Hk].
      * destruct (decide (name = name ∧ key = key)) as [_|Hno];
          [apply lookup_insert_eq | by destruct Hno].
      * destruct (decide (name = name ∧ key' = key)) as [[_ Hyes]|_];
          [done | by apply lookup_insert_ne].
    + by case_decide.
  - destruct (decide (name' = name ∧ key' = key)) as [[Hyes _]|_]; done.
Qed.

Lemma entry_put_eq name key r s :
  is_Some (storage_lookup name s) →
  entry name key (storage_put name key r s) = Some r.
Proof.
  intros [c Hc]. rewrite entry_put, decide_True by done. by rewrite Hc.
Qed.

Lemma entry_put_open name key r s :
  entry name key (storage_put name key r (storage_open name s)) = Some r.
Proof. apply entry_put_eq, storage_lookup_open. Qed.

Lemma storage_lookup_put_is_Some name' name key r s :
  is_Some (storage_lookup name' s) →
  is_Some (storage_lookup name' (storage_put name key r s)).
Proof.
  intros [c Hc]. rewrite storage_lookup_put. case_decide; subst; rewrite Hc; simpl; eauto.
Qed.

(** A key held by a named cache is found by the storage-wide lookup. *)
Lemma entry_storage_match name key r s :
  entry name key s = Some r → is_Some (storage_match key s).
Proof.
  unfold entry. induction s as [|[n c] s IH]; simpl; [done|].
  case_decide; simpl.
  - intros ->. eauto.
  - intros Hrest. destruct (c !! key); eauto.
Qed.

(** What the storage-wide lookup returns is held by some cache. *)
Lemma storage_match_elem key r s :
  storage_match key s = Some r → ∃ p, p ∈ s ∧ p.2 !! key = Some r.
Proof.
  induction s as [|[n c] s IH]; simpl; [done|].
  destruct (c !! key) eqn:E.
  - intros [= ->]. exists (n, c). split; [left | done].
  - intros H. destruct (IH H) as (p & Hp & Hk). exists p. split; [by right | done].
Qed.

Lemma allStoredOk_match key r s :
  allStoredOk s → storage_match key s = Some r → ok r = true.
Proof.
  intros Hall Hm. destruct (storage_match_elem _ _ _ Hm) as (p & Hp & Hk).
  unfold allStoredOk in Hall. rewrite Forall_forall in Hall.
  exact (Hall p Hp key r Hk).
Qed.

Lemma allStoredOk_open name s : allStoredOk s → allStoredOk (storage_open name s).
Proof.
  unfold allStoredOk, storage_open. intros H.
  destruct (storage_lookup name s); [done|].
  apply Forall_app. split; [done|].
  constructor; [|done]. simpl. apply map_Forall_empty.
Qed.

Lemma allStoredOk_put name key r s :
  ok r = true → allStoredOk s → allStoredOk (storage_put name key r s).
Proof.
  unfold allStoredOk. intros Hr. induction 1 as [|[n c] s Hc Hs IH]; simpl; [done|].
  case_decide; constructor; simpl in *; try done.
  by apply map_Forall_insert_2.
Qed.

Lemma allStoredOk_delete name s : allStoredOk s → allStoredOk (storage_delete name s).
Proof.
  unfold allStoredOk, storage_delete. intros H.
  apply Forall_forall. intros p Hp. apply list_elem_of_filter in Hp as [_ Hp].
  rewrite Forall_forall in H. by apply H.
Qed.

End StorageFacts.

(** ** The strategy executors, unfolded *)

Ltac run_monad :=
  unfold fmap, M_fmap, mbind, M_bind, mret, M_ret, tryCatch, throw, emit, detached,
    fetch, cachesOpen, cachesMatch, cacheMatch, cachePut, cachesKeys, cachesDelete.

Section Strategies.
Variable network : string → FetchOutcome.
Variable resolve : string → string.
Implicit Types (request : Request) (cacheName : string) (s : CacheStorage).

Lemma cacheFirst_unfold request cacheName s :
  cacheFirst network request cacheName s =
  match storage_match (url request) s with
  | Some c => (Ok c, s, [])
  | None =>
      match network (url request) with
      | NetworkError => (Ok offline503, s, [Fetched (url request)])
      | Responded r =>
          if ok r
          then (Ok r, storage_put cacheName (url request) r (storage_open cacheName s),
                [Fetched (url request); Put cacheName (url request) r])
          else (Ok r, s, [Fetched (url request)])
      end
  end.
Proof.
  unfold cacheFirst. run_monad.
  destruct (storage_match (url request) s); [done|].
  destruct (network (url request)) as [|r]; [done|].
  by destruct (ok r).
Qed.

Lemma networkFirst_unfold request cacheName s :
  networkFirst network resolve request cacheName s =
  match network (url request) with
  | NetworkError => (Ok (networkFirstFallback resolve request s), s, [Fetched (url request)])
  | Responded r =>
      if ok r
      then (Ok r, storage_put cacheName (url request) r (storage_open cacheName s),
            [Fetched (url request); Put cacheName (url request) r])
      else (Ok r, s, [Fetched (url request)])
  end.
Proof.
  unfold networkFirst, networkFirstFallback. run_monad.
  destruct (network (url request)) as [|r].
  - destruct (storage_match (url request) s); [done|].
    by destruct (storage_match (resolve "/") s).
  - by destruct (ok r).
Qed.

Lemma staleWhileRevalidate_unfold request cacheName s :
  staleWhileRevalidate network request cacheName s =
  let opened := storage_open cacheName s in
  let cached := entry cacheName (url request) opened in
  match network (url request) with
  | NetworkError => (Ok (default empty503 cached), opened, [Fetched (url request)])
  | Responded r =>
      if ok r
      then (Ok (default r cached), storage_put cacheName (url request) r opened,
            [Fetched (url request); Put cacheName (url request) r])
      else (Ok (default r cached), opened, [Fetched (url request)])
  end.
Proof.
  unfold staleWhileRevalidate. run_monad. simpl.
  destruct (network (url request)) as [|r].
  - by destruct (entry cacheName (url request) (storage_open cacheName s)).
  - destruct (ok r);
      by destruct (entry cacheName (url request) (storage_open cacheName s)).
Qed.

Lemma onFetch_classify request s :
  onFetch network resolve request s =
  match classify request with
  | BYPASS => (Ok None, s, [])
  | FONT => (Some <$> cacheFirst network request CACHE_NAME) s
  | DOCUMENT => (Some <$> networkFirst network resolve request CACHE_NAME) s
  | STATIC_ASSET => (Some <$> staleWhileRevalidate network request RUNTIME_CACHE) s
  | DEFAULT => (Some <$> networkFirst network resolve request RUNTIME_CACHE) s
  end.
Proof.
  unfold onFetch, classify.
  destruct (String.eqb (hostname request) "api.anthropic.com"); [done|].
  destruct (negb (startsWith (url request) "http")); [done|].
  destruct (isFontHost request); [done|].
  destruct (acceptsHtml request); [done|].
  by destruct (isScriptOrStyle request).
Qed.

Lemma fmap_Some_run (m : M Response) s :
  (Some <$> m) s = (match resultOf (m s) with Ok a => Ok (Some a) | Throw e => Throw e end,
                    storageOf (m s), effectsOf (m s)).
Proof.
  run_monad. unfold resultOf, storageOf, effectsOf.
  destruct (m s) as [[[a|e] s1] t1]; simpl; [|done].
  by rewrite app_nil_r.
Qed.

End Strategies.

(** ** Cache-first *)

(** C5. When the store lookup for the request hits, cache-first returns the
    stored response, performs no network fetch (it has no effect at all) and
    leaves the storage as it was; and a request that has an entry in any
    named cache, the target one included, is such a hit. *)
Theorem cacheFirst_hit network request cacheName s :
  (∀ cached, storage_match (url request) s = Some cached →
     let out := cacheFirst network request cacheName s in
     resultOf out = Ok cached ∧ fetches (effectsOf out) = [] ∧
     effectsOf out = [] ∧ storageOf out = s) ∧
  (∀ name r, entry name (url request) s = Some r →
     let out := cacheFirst network request cacheName s in
     ∃ cached, storage_match (url request) s = Some cached ∧
       resultOf out = Ok cached ∧ length (fetches (effectsOf out)) = 0).
Proof.
  split.
  - intros cached Hhit. rewrite cacheFirst_unfold, Hhit. by cbn.
  - intros name r Hentry.
    destruct (entry_storage_match _ _ _ _ Hentry) as [cached Hhit].
    exists cached. rewrite cacheFirst_unfold, Hhit. by cbn.
Qed.

Lemma cacheFirst_hit_witness :
  storage_match (url fontRequest) fontStorage = Some fontFile ∧
  resultOf (cacheFirst offlineNetwork fontRequest CACHE_NAME fontStorage) = Ok fontFile ∧
  fetches (effectsOf (cacheFirst offlineNetwork fontRequest CACHE_NAME fontStorage)) = [].
Proof.
  assert (Hhit : storage_match (url fontRequest) fontStorage = Some fontFile)
    by (vm_compute; reflexivity).
  split; [exact Hhit|].
  destruct (cacheFirst_hit offlineNetwork fontRequest CACHE_NAME fontStorage) as [Hfirst _].
  destruct (Hfirst fontFile Hhit) as (Hres & Hfetch & _).
  split; [exact Hres | exact Hfetch].
Defined.

(** C1, as stated, fails: on a miss with a 404 from the network, cache-first
    returns that 404, not a synthesized 503. *)
Lemma cacheFirst_non2xx_counterexample :
  storage_match (url fontRequest) [] = None ∧
  notFoundNetwork (url fontRequest) = Responded notFound ∧
  ok notFound = false ∧
  resultOf (cacheFirst notFoundNetwork fontRequest CACHE_NAME []) = Ok notFound ∧
  status notFound ≠ 503%Z ∧
  notFound ≠ offline503.
Proof. repeat split; try (vm_compute; reflexivity); discriminate. Qed.

(** C1, amended. On a miss cache-first makes one network fetch and never
    throws.  A 2xx response is stored under the target cache and returned; a
    response with any other status is returned as received and nothing is
    stored; a network error yields the synthesized ["Offline"] response with
    status 503, and nothing is stored. *)
Theorem cacheFirst_miss network request cacheName s :
  storage_match (url request) s = None →
  let out := cacheFirst network request cacheName s in
  fetches (effectsOf out) = [url request] ∧
  (∀ e, resultOf out ≠ Throw e) ∧
  match network (url request) with
  | Responded r =>
      resultOf out = Ok r ∧
      if ok r
      then entry cacheName (url request) (storageOf out) = Some r ∧
           puts (effectsOf out) = [(cacheName, url request, r)]
      else storageOf out = s ∧ puts (effectsOf out) = []
  | NetworkError =>
      resultOf out = Ok offline503 ∧ status offline503 = 503%Z ∧
      body offline503 = "Offline" ∧ storageOf out = s ∧ puts (effectsOf out) = []
  end.
Proof.
  intros Hmiss. cbn zeta. rewrite cacheFirst_unfold, Hmiss.
  destruct (network (url request)) as [|r]; [by cbn|].
  destruct (ok r) eqn:Hok; cbn; [|done].
  repeat split; try done. apply entry_put_open.
Qed.

Lemma cacheFirst_miss_witness :
  resultOf (cacheFirst offlineNetwork fontRequest CACHE_NAME []) = Ok offline503 ∧
  resultOf (cacheFirst fontNetwork fontRequest CACHE_NAME []) = Ok fontFile ∧
  entry CACHE_NAME (url fontRequest)
    (storageOf (cacheFirst fontNetwork fontRequest CACHE_NAME [])) = Some fontFile.
Proof.
  assert (Hmiss : storage_match (url fontRequest) [] = None) by reflexivity.
  pose proof (cacheFirst_miss offlineNetwork fontRequest CACHE_NAME [] Hmiss) as Hoff.
  pose proof (cacheFirst_miss fontNetwork fontRequest CACHE_NAME [] Hmiss) as Hup.
  cbn zeta in Hoff, Hup.
  destruct Hoff as (_ & _ & Hoff). destruct Hup as (_ & _ & Hup).
  change (offlineNetwork (url fontRequest)) with NetworkError in Hoff.
  change (fontNetwork (url fontRequest)) with (Responded fontFile) in Hup.
  change (ok fontFile) with true in Hup.
  destruct Hoff as (Hoff & _). destruct Hup as (Hres & Hstored & _).
  split; [exact Hoff|]. split; [exact Hres | exact Hstored].
Defined.

(** ** Network-first *)

(** C10. A network response with a non-2xx status is returned exactly as
    received: the storage is left as it was, the only effect is the fetch
    (no store lookup result is used, no store write), whatever the stores
    hold.  Any response at all is what network-first returns; the fallback
    answers only when the fetch throws. *)
Theorem networkFirst_non2xx_passthrough network resolve request cacheName s :
  (∀ r, network (url request) = Responded r → ok r = false →
     networkFirst network resolve request cacheName s = (Ok r, s, [Fetched (url request)]) ∧
     puts (effectsOf (networkFirst network resolve request cacheName s)) = []) ∧
  (∀ r, network (url request) = Responded r →
     resultOf (networkFirst network resolve request cacheName s) = Ok r) ∧
  (network (url request) = NetworkError →
     networkFirst network resolve request cacheName s =
       (Ok (networkFirstFallback resolve request s), s, [Fetched (url request)])).
Proof.
  rewrite networkFirst_unfold. split; [|split].
  - intros r -> ->. done.
  - intros r ->. by destruct (ok r).
  - by intros ->.
Qed.

Lemma networkFirst_non2xx_passthrough_witness :
  networkFirst notFoundNetwork resolveApp pageRequest CACHE_NAME shellStorage =
    (Ok notFound, shellStorage, [Fetched (url pageRequest)]) ∧
  networkFirst offlineNetwork resolveApp pageRequest CACHE_NAME shellStorage =
    (Ok homeDocument, shellStorage, [Fetched (url pageRequest)]).
Proof.
  destruct (networkFirst_non2xx_passthrough notFoundNetwork resolveApp pageRequest CACHE_NAME shellStorage)
    as (Hbad & _ & _).
  destruct (networkFirst_non2xx_passthrough offlineNetwork resolveApp pageRequest CACHE_NAME shellStorage)
    as (_ & _ & Hdown).
  split.
  - apply (Hbad notFound); reflexivity.
  - rewrite (Hdown eq_refl). vm_compute. reflexivity.
Defined.

Lemma networkFirst_last_resort network resolve request cacheName s :
  network (url request) = NetworkError →
  storage_match (url request) s = None →
  networkFirst network resolve request cacheName s =
  (Ok (match storage_match (resolve "/") s with
       | Some root => root
       | None => offlineDocument
       end), s, [Fetched (url request)]).
Proof.
  intros Hdown Hmiss. rewrite networkFirst_unfold, Hdown.
  unfold networkFirstFallback. by rewrite Hmiss.
Qed.

Lemma onFetch_last_resort network resolve request s :
  classify request = DOCUMENT →
  network (url request) = NetworkError →
  storage_match (url request) s = None →
  onFetch network resolve request s =
  (Ok (Some (match storage_match (resolve "/") s with
             | Some root => root
             | None => offlineDocument
             end)), s, [Fetched (url request)]).
Proof.
  intros Hdoc Hdown Hmiss.
  rewrite onFetch_classify, Hdoc, fmap_Some_run.
  by rewrite (networkFirst_last_resort _ _ _ _ _ Hdown Hmiss).
Qed.

(** C2, as stated, fails twice over.  A request that is not a document
    request (an image) whose fetch throws and whose lookups miss is answered
    with the offline document and status 200, not with a 503; and a document
    request is answered with the cached root document when there is one, not
    with the generated offline document. *)
Lemma networkFirst_fallback_counterexample :
  (classify dataRequest = DEFAULT ∧
   acceptsHtml dataRequest = false ∧
   offlineNetwork (url dataRequest) = NetworkError ∧
   storage_match (url dataRequest) [] = None ∧
   resultOf (networkFirst offlineNetwork resolveApp dataRequest RUNTIME_CACHE []) = Ok offlineDocument ∧
   status offlineDocument = 200%Z) ∧
  (classify pageRequest = DOCUMENT ∧
   offlineNetwork (url pageRequest) = NetworkError ∧
   storage_match (url pageRequest) shellStorage = None ∧
   resultOf (networkFirst offlineNetwork resolveApp pageRequest CACHE_NAME shellStorage) = Ok homeDocument ∧
   body homeDocument ≠ body offlineDocument).
Proof.
  split.
  - repeat split; vm_compute; reflexivity.
  - split; [vm_compute; reflexivity|]. split; [reflexivity|].
    split; [vm_compute; reflexivity|]. split; [vm_compute; reflexivity|].
    vm_compute. discriminate.
Qed.

(** C2, amended. For a document request that network-first handles, when
    the fetch throws and the store lookup for the request misses, the answer
    is the root document cached under ["/"] if some cache holds one, and
    otherwise the generated offline document, which has status 200 and
    content type text/html; nothing is written. *)
Theorem networkFirst_document_fallback network resolve request s :
  classify request = DOCUMENT →
  network (url request) = NetworkError →
  storage_match (url request) s = None →
  let fallback :=
    match storage_match (resolve "/") s with
    | Some root => root
    | None => offlineDocument
    end in
  networkFirst network resolve request CACHE_NAME s = (Ok fallback, s, [Fetched (url request)]) ∧
  onFetch network resolve request s = (Ok (Some fallback), s, [Fetched (url request)]) ∧
  status offlineDocument = 200%Z ∧
  contentType offlineDocument = Some "text/html" ∧
  body offlineDocument = offlinePage.
Proof.
  intros Hdoc Hdown Hmiss. cbn zeta. split; [|split].
  - by apply networkFirst_last_resort.
  - by apply onFetch_last_resort.
  - done.
Qed.

Lemma networkFirst_document_fallback_witness :
  onFetch offlineNetwork resolveApp pageRequest shellStorage =
    (Ok (Some homeDocument), shellStorage, [Fetched (url pageRequest)]) ∧
  onFetch offlineNetwork resolveApp pageRequest [] =
    (Ok (Some offlineDocument), [], [Fetched (url pageRequest)]).
Proof.
  split.
  - refine (proj1 (proj2 (networkFirst_document_fallback offlineNetwork resolveApp
                            pageRequest shellStorage _ _ _)));
      vm_compute; reflexivity.
  - refine (proj1 (proj2 (networkFirst_document_fallback offlineNetwork resolveApp
                            pageRequest [] _ _ _)));
      vm_compute; reflexivity.
Defined.

(** ** Stale-while-revalidate *)

(** C6. When the target cache holds an entry for the request,
    stale-while-revalidate returns it, and exactly one network fetch for the
    request is made all the same.  The network is arbitrary here: whether
    the revalidation succeeds, answers with a non-2xx status or throws, the
    executor returns the stored response and does not throw. *)
Theorem staleWhileRevalidate_hit network request cacheName s cached :
  entry cacheName (url request) s = Some cached →
  let out := staleWhileRevalidate network request cacheName s in
  resultOf out = Ok cached ∧
  fetches (effectsOf out) = [url request] ∧
  ∀ other, resultOf (staleWhileRevalidate other request cacheName s) = resultOf out.
Proof.
  intros Hhit. cbn zeta.
  assert (Hany : ∀ net, resultOf (staleWhileRevalidate net request cacheName s) = Ok cached
                        ∧ fetches (effectsOf (staleWhileRevalidate net request cacheName s))
                          = [url request]).
  { intros net. rewrite staleWhileRevalidate_unfold. cbn zeta.
    rewrite entry_open, Hhit.
    destruct (net (url request)) as [|r]; [done|]. by destruct (ok r). }
  destruct (Hany network) as [Hres Hfetch].
  repeat split; [exact Hres | exact Hfetch |].
  intros other. rewrite Hres. apply Hany.
Qed.

Lemma staleWhileRevalidate_hit_witness :
  resultOf (staleWhileRevalidate offlineNetwork scriptRequest RUNTIME_CACHE scriptStorage)
    = Ok bundle ∧
  resultOf (staleWhileRevalidate notFoundNetwork scriptRequest RUNTIME_CACHE scriptStorage)
    = Ok bundle ∧
  fetches (effectsOf (staleWhileRevalidate notFoundNetwork scriptRequest RUNTIME_CACHE
                        scriptStorage)) = [url scriptRequest].
Proof.
  assert (Hhit : entry RUNTIME_CACHE (url scriptRequest) scriptStorage = Some bundle)
    by (vm_compute; reflexivity).
  destruct (staleWhileRevalidate_hit offlineNetwork scriptRequest RUNTIME_CACHE
              scriptStorage bundle Hhit) as (Hoff & _ & _).
  destruct (staleWhileRevalidate_hit notFoundNetwork scriptRequest RUNTIME_CACHE
              scriptStorage bundle Hhit) as (Hbad & Hfetch & _).
  split; [exact Hoff|]. split; [exact Hbad | exact Hfetch].
Defined.

(** ** The store-write invariant *)

Section StoreWrites.
Variable network : string → FetchOutcome.
Variable resolve : string → string.

Lemma executors_shape exec request cacheName s :
  exec ∈ executors network resolve →
  WriteShape network request cacheName s
    (storageOf (exec request cacheName s)) (effectsOf (exec request cacheName s)).
Proof.
  unfold executors. rewrite !elem_of_cons, elem_of_nil.
  intros [->|[->|[->|[]]]].
  - rewrite cacheFirst_unfold.
    destruct (storage_match (url request) s); [constructor; auto|].
    destruct (network (url request)) as [|r] eqn:Hnet; [constructor; auto|].
    destruct (ok r) eqn:Hok; [|constructor; auto].
    by apply (OneWrite _ _ _ _ r).
  - rewrite networkFirst_unfold.
    destruct (network (url request)) as [|r] eqn:Hnet; [constructor; auto|].
    destruct (ok r) eqn:Hok; [|constructor; auto].
    by apply (OneWrite _ _ _ _ r).
  - rewrite staleWhileRevalidate_unfold. cbn zeta.
    destruct (network (url request)) as [|r] eqn:Hnet; [constructor; auto|].
    destruct (ok r) eqn:Hok; [|constructor; auto].
    by apply (OneWrite _ _ _ _ r).
Qed.

End StoreWrites.

(** C4. For each of the three strategy executors: every store write of an
    execution carries a 2xx response; every entry of every cache is, after
    the execution, either what it was before or a 2xx response written by
    this execution; and when the network answers with a non-2xx status the
    execution writes nothing and every entry is what it was before. *)
Theorem store_write_only_2xx network resolve exec request cacheName s :
  exec ∈ executors network resolve →
  let out := exec request cacheName s in
  Forall (λ w, ok w.2 = true) (puts (effectsOf out)) ∧
  (∀ name key,
     entry name key (storageOf out) = entry name key s ∨
     ∃ r, entry name key (storageOf out) = Some r ∧ ok r = true ∧
          (name, key, r) ∈ puts (effectsOf out)) ∧
  (∀ r, network (url request) = Responded r → ok r = false →
     puts (effectsOf out) = [] ∧
     ∀ name key, entry name key (storageOf out) = entry name key s).
Proof.
  intros Hexec. cbn zeta.
  destruct (executors_shape network resolve exec request cacheName s Hexec)
    as [s' t Hs' Hputs | r t Hnet Hok Hputs].
  - assert (Hsame : ∀ name key, entry name key s' = entry name key s).
    { intros name key. destruct Hs' as [->| ->]; [done | apply entry_open]. }
    rewrite Hputs. split; [constructor|]. split; [by left|]. done.
  - rewrite Hputs. split; [by repeat constructor|]. split.
    + intros name key. rewrite entry_put.
      destruct (decide (name = cacheName ∧ key = url request)) as [[-> ->]|_].
      * right. exists r. destruct (storage_lookup_open cacheName s) as [c ->].
        split; [done|]. split; [done|]. by left.
      * left. apply entry_open.
    + intros r' Hnet' Hbad. rewrite Hnet in Hnet'. injection Hnet' as <-.
      congruence.
Qed.

Lemma store_write_only_2xx_witness :
  puts (effectsOf (networkFirst notFoundNetwork resolveApp pageRequest CACHE_NAME shellStorage)) = [] ∧
  puts (effectsOf (cacheFirst notFoundNetwork fontRequest CACHE_NAME [])) = [] ∧
  puts (effectsOf (staleWhileRevalidate notFoundNetwork scriptRequest RUNTIME_CACHE [])) = [].
Proof.
  assert (Hnf : networkFirst notFoundNetwork resolveApp ∈ executors notFoundNetwork resolveApp)
    by (right; left).
  assert (Hcf : cacheFirst notFoundNetwork ∈ executors notFoundNetwork resolveApp)
    by left.
  assert (Hswr : staleWhileRevalidate notFoundNetwork ∈ executors notFoundNetwork resolveApp)
    by (right; right; left).
  split; [|split].
  - exact (proj1 (proj2 (proj2 (store_write_only_2xx notFoundNetwork resolveApp _ pageRequest
             CACHE_NAME shellStorage Hnf)) notFound eq_refl eq_refl)).
  - exact (proj1 (proj2 (proj2 (store_write_only_2xx notFoundNetwork resolveApp _ fontRequest
             CACHE_NAME [] Hcf)) notFound eq_refl eq_refl)).
  - exact (proj1 (proj2 (proj2 (store_write_only_2xx notFoundNetwork resolveApp _ scriptRequest
             RUNTIME_CACHE [] Hswr)) notFound eq_refl eq_refl)).
Defined.

(** ** Cutover *)

Lemma bind_run {A B} (m : M A) (f : A → M B) s :
  (m ≫= f) s =
  match m s with
  | (Ok a, s1, t1) =>
      match f a s1 with
      | (r, s2, t2) => (r, s2, t1 ++ t2)
      end
  | (Throw e, s1, t1) => (Throw e, s1, t1)
  end.
Proof. reflexivity. Qed.

Lemma promiseAll_delete names s :
  ∃ found,
    promiseAll (map (λ name, consoleLog ["[SW] Deleting old cache:"; name];;
                             cachesDelete name) names) s
    = (Ok found, deleteAll names s, deleteTrace names).
Proof.
  set (deleteOld := λ name, consoleLog ["[SW] Deleting old cache:"; name];;
                            cachesDelete name).
  revert s. induction names as [|n names IH]; intros s.
  - by exists [].
  - destruct (IH (storage_delete n s)) as [found Hrest].
    assert (Hhead : deleteOld n s =
                    (Ok (bool_decide (is_Some (storage_lookup n s))), storage_delete n s,
                     [Logged ["[SW] Deleting old cache:"; n]; Deleted n]))
      by reflexivity.
    cbn [map promiseAll]. rewrite Hhead, Hrest. by eexists.
Qed.

Lemma onActivate_unfold s :
  onActivate s =
  (Ok tt, deleteAll (List.filter staleName (s.*1)) s,
   deleteTrace (List.filter staleName (s.*1)) ++ [ClientsClaimed]).
Proof.
  destruct (promiseAll_delete (List.filter staleName (s.*1)) s) as [found Hdel].
  unfold onActivate. rewrite bind_run.
  change (cachesKeys s) with (Ok (s.*1), s, @nil Effect). cbn iota beta.
  rewrite bind_run, Hdel. done.
Qed.

Lemma deletions_deleteTrace names : deletions (deleteTrace names) = names.
Proof. induction names as [|n names IH]; simpl; [done|]. unfold deletions in *. simpl. by f_equal. Qed.

Lemma deletions_app t1 t2 : deletions (t1 ++ t2) = deletions t1 ++ deletions t2.
Proof. apply omap_app. Qed.

Lemma elem_of_deleteAll p names s :
  p ∈ deleteAll names s ↔ p ∈ s ∧ p.1 ∉ names.
Proof.
  revert s. induction names as [|n names IH]; intros s; simpl.
  - rewrite elem_of_nil. tauto.
  - unfold deleteAll in *. simpl. rewrite IH. unfold storage_delete.
    rewrite list_elem_of_filter, not_elem_of_cons. tauto.
Qed.

Lemma elem_of_retained p s :
  p ∈ deleteAll (List.filter staleName (s.*1)) s ↔ p ∈ s ∧ staleName p.1 = false.
Proof.
  rewrite elem_of_deleteAll. split; intros [Hp Hkeep]; (split; [done|]).
  - destruct (staleName p.1) eqn:Hstale; [|done].
    destruct Hkeep. apply list_elem_of_In, filter_In. split; [|done].
    apply list_elem_of_In, list_elem_of_fmap. by exists p.
  - intros Hin. apply list_elem_of_In, filter_In in Hin as [_ Hstale]. congruence.
Qed.

Lemma filter_stale_retained s :
  List.filter staleName ((deleteAll (List.filter staleName (s.*1)) s).*1) = [].
Proof.
  match goal with |- ?l = [] => destruct l as [|n rest] eqn:E end; [done|].
  assert (Hin : In n (List.filter staleName
                        ((deleteAll (List.filter staleName (s.*1)) s).*1)))
    by (rewrite E; by left).
  apply filter_In in Hin as [Hin Hstale].
  apply list_elem_of_In, list_elem_of_fmap in Hin as (p & -> & Hp).
  apply elem_of_retained in Hp as [_ Hkeep]. congruence.
Qed.

(** C7. The first activation deletes exactly the caches whose name is
    neither current-generation name, and keeps the others; a second
    activation right after it deletes nothing, leaves the storage as the
    first left it, and only claims the clients again. *)
Theorem cutover_idempotent s :
  let first := onActivate s in
  let second := onActivate (storageOf first) in
  resultOf first = Ok tt ∧
  deletions (effectsOf first) = List.filter staleName (s.*1) ∧
  (∀ p, p ∈ storageOf first ↔ p ∈ s ∧ staleName p.1 = false) ∧
  resultOf second = Ok tt ∧
  deletions (effectsOf second) = [] ∧
  effectsOf second = [ClientsClaimed] ∧
  storageOf second = storageOf first.
Proof.
  cbn zeta. rewrite !onActivate_unfold. cbn [resultOf storageOf effectsOf fst snd].
  rewrite filter_stale_retained. cbn.
  split; [done|]. split.
  - rewrite deletions_app, deletions_deleteTrace. apply app_nil_r.
  - split; [intros p; apply elem_of_retained | done].
Qed.

Example cutover_twice :
  let s := [("openclaw-v1", ∅); (CACHE_NAME, ∅); ("openclaw-runtime-v1", ∅); (RUNTIME_CACHE, ∅)] in
  deletions (effectsOf (onActivate s)) = ["openclaw-v1"; "openclaw-runtime-v1"] ∧
  (storageOf (onActivate s)).*1 = [CACHE_NAME; RUNTIME_CACHE] ∧
  deletions (effectsOf (onActivate (storageOf (onActivate s)))) = [].
Proof. vm_compute. done. Qed.

(** ** Precache and priming the runtime store *)

Section Batches.
Variable network : string → FetchOutcome.
Variable resolve : string → string.

Lemma putAll_cons name p ps s :
  putAll name (p :: ps) s = putAll name ps (storage_put name p.1 p.2 s).
Proof. reflexivity. Qed.

Lemma stored_cons u urls :
  stored network (u :: urls) =
  match network u with
  | Responded r => if ok r then (u, r) :: stored network urls else stored network urls
  | NetworkError => stored network urls
  end.
Proof.
  unfold stored. simpl. destruct (network u) as [|r]; [done|]. by destruct (ok r).
Qed.

Lemma elem_of_stored u r urls :
  (u, r) ∈ stored network urls ↔ u ∈ urls ∧ network u = Responded r ∧ ok r = true.
Proof.
  unfold stored. rewrite list_elem_of_omap. split.
  - intros (v & Hv & Hsome). destruct (network v) as [|r'] eqn:Hnet; [done|].
    destruct (ok r') eqn:Hok; [|done]. injection Hsome as <- <-. done.
  - intros (Hu & Hnet & Hok). exists u. split; [done|]. by rewrite Hnet, Hok.
Qed.

Lemma putAll_lookup_is_Some name' name ps s :
  is_Some (storage_lookup name' s) → is_Some (storage_lookup name' (putAll name ps s)).
Proof.
  revert s. induction ps as [|p ps IH]; intros s Hs; [done|].
  rewrite putAll_cons. by apply IH, storage_lookup_put_is_Some.
Qed.

(** Writing a batch whose pairs agree on the key [u] leaves [r] under [u]. *)
Lemma putAll_entry name u r ps s :
  (∀ r', (u, r') ∈ ps → r' = r) →
  is_Some (storage_lookup name s) →
  (u, r) ∈ ps ∨ entry name u s = Some r →
  entry name u (putAll name ps s) = Some r.
Proof.
  revert s. induction ps as [|[k v] ps IH]; intros s Hfun Hs Hor.
  - destruct Hor as [Hin|Hentry]; [by apply elem_of_nil in Hin | done].
  - rewrite putAll_cons. simpl. apply IH.
    + intros r' Hin. apply Hfun. by right.
    + by apply storage_lookup_put_is_Some.
    + destruct (decide (k = u)) as [->|Hne].
      * right. assert (v = r) as -> by (apply Hfun; left).
        by apply entry_put_eq.
      * destruct Hor as [Hin|Hentry].
        -- left. apply elem_of_cons in Hin as [Heq|Hin]; [|done].
           injection Heq as -> ->. done.
        -- right. rewrite entry_put.
           destruct (decide (name = name ∧ u = k)) as [[_ Heq]|_]; [by subst|done].
Qed.

Lemma allStoredOk_putAll name ps s :
  Forall (λ p, ok p.2 = true) ps → allStoredOk s → allStoredOk (putAll name ps s).
Proof.
  revert s. induction ps as [|p ps IH]; intros s Hps Hs; [done|].
  rewrite putAll_cons. apply Forall_cons in Hps as [Hp Hps].
  by apply IH, allStoredOk_put.
Qed.

Lemma stored_all_ok urls : Forall (λ p, ok p.2 = true) (stored network urls).
Proof.
  apply Forall_forall. intros [u r] Hin. by apply elem_of_stored in Hin as (_ & _ & Hok).
Qed.

(** *** install *)

Lemma allSettled_add cache urls s :
  ∃ outcomes,
    allSettled (map (λ u, tryCatch (cacheAdd network resolve cache u)
                            (λ e, consoleWarn ["[SW] Could not cache:"; u])) urls) s
    = (Ok outcomes, putAll cache (stored network (map resolve urls)) s,
       flat_map (addTrace network resolve cache) urls).
Proof.
  set (guarded := λ u, tryCatch (cacheAdd network resolve cache u)
                         (λ e, consoleWarn ["[SW] Could not cache:"; u])).
  revert s. induction urls as [|u urls IH]; intros s.
  - by exists [].
  - assert (Hhead : ∃ o, guarded u s =
        (o, putAll cache (stored network [resolve u]) s, addTrace network resolve cache u)).
    { unfold guarded, cacheAdd, consoleWarn, addTrace, stored. run_monad. simpl.
      destruct (network (resolve u)) as [|r]; [by eexists|].
      destruct (ok r); by eexists. }
    destruct Hhead as [o Hhead].
    destruct (IH (putAll cache (stored network [resolve u]) s)) as [outcomes Hrest].
    cbn [map allSettled flat_map]. rewrite Hhead, Hrest.
    eexists. f_equal. f_equal. rewrite stored_cons.
    unfold stored. simpl. destruct (network (resolve u)) as [|r]; [done|].
    by destruct (ok r).
Qed.

Lemma onInstall_unfold manifest s :
  onInstall network resolve manifest s =
  (Ok tt, putAll CACHE_NAME (stored network (map resolve manifest))
            (storage_open CACHE_NAME s),
   Logged ["[SW] Precaching app shell"]
     :: flat_map (addTrace network resolve CACHE_NAME) manifest ++ [SkipWaiting]).
Proof.
  destruct (allSettled_add CACHE_NAME manifest (storage_open CACHE_NAME s))
    as [outcomes Hadd].
  unfold onInstall. rewrite bind_run.
  change (cachesOpen CACHE_NAME s) with (Ok CACHE_NAME, storage_open CACHE_NAME s, @nil Effect).
  cbn iota beta. rewrite bind_run.
  change (consoleLog ["[SW] Precaching app shell"] (storage_open CACHE_NAME s))
    with (Ok tt, storage_open CACHE_NAME s, [Logged ["[SW] Precaching app shell"]]).
  cbn iota beta. rewrite bind_run, Hadd. done.
Qed.

Lemma fetches_addTrace cache urls :
  fetches (flat_map (addTrace network resolve cache) urls) = map resolve urls.
Proof.
  induction urls as [|u urls IH]; [done|].
  cbn [flat_map map]. unfold fetches in *. rewrite omap_app, IH.
  unfold addTrace. destruct (network (resolve u)) as [|r]; [done|]. by destruct (ok r).
Qed.

Lemma warned_addTrace cache u urls :
  u ∈ urls → fetchedOk network (resolve u) = false →
  Warned ["[SW] Could not cache:"; u] ∈ flat_map (addTrace network resolve cache) urls.
Proof.
  intros Hin Hbad. apply list_elem_of_In, in_flat_map. exists u.
  split; [by apply list_elem_of_In|].
  unfold addTrace, fetchedOk in *. destruct (network (resolve u)) as [|r].
  - right. by left.
  - rewrite Hbad. right. by left.
Qed.

End Batches.

(** C8. Whatever the manifest and whatever the network does, the install
    handler completes without throwing; every URL of the manifest is fetched,
    once and in order; every URL whose fetch yields a 2xx response is then
    held by the precache store with that response, whichever other URLs
    failed; every URL that failed is reported by a warning; and the last
    thing the handler does is to call [skipWaiting]. *)
Theorem precache_tolerates_failures network resolve manifest s :
  let out := onInstall network resolve manifest s in
  resultOf out = Ok tt ∧
  fetches (effectsOf out) = map resolve manifest ∧
  (∀ u r, u ∈ manifest → network (resolve u) = Responded r → ok r = true →
     entry CACHE_NAME (resolve u) (storageOf out) = Some r) ∧
  (∀ u, u ∈ manifest → fetchedOk network (resolve u) = false →
     Warned ["[SW] Could not cache:"; u] ∈ effectsOf out) ∧
  last (effectsOf out) = Some SkipWaiting.
Proof.
  cbn zeta. rewrite onInstall_unfold. cbn [resultOf storageOf effectsOf fst snd].
  split; [done|]. split; [|split; [|split]].
  - change (fetches (?x :: ?t)) with (fetches t). unfold fetches. rewrite omap_app.
    simpl. rewrite app_nil_r. apply fetches_addTrace.
  - intros u r Hin Hnet Hok. apply putAll_entry.
    + intros r' Hr'. apply elem_of_stored in Hr' as (_ & Hnet' & _). congruence.
    + apply storage_lookup_open.
    + left. apply elem_of_stored. split; [|done].
      apply list_elem_of_fmap. by exists u.
  - intros u Hin Hbad. right. apply elem_of_app. left. by apply warned_addTrace.
  - change (?x :: ?t ++ ?l) with ((x :: t) ++ l). apply last_snoc.
Qed.

Lemma precache_tolerates_failures_witness :
  resultOf (onInstall flakyNetwork resolveApp ["/a"; "/b"; "/c"] []) = Ok tt ∧
  entry CACHE_NAME "https://openclaw.app/a" (storageOf (onInstall flakyNetwork resolveApp ["/a"; "/b"; "/c"] [])) = Some bundle ∧
  entry CACHE_NAME "https://openclaw.app/c" (storageOf (onInstall flakyNetwork resolveApp ["/a"; "/b"; "/c"] [])) = Some bundle ∧
  Warned ["[SW] Could not cache:"; "/b"] ∈ effectsOf (onInstall flakyNetwork resolveApp ["/a"; "/b"; "/c"] []).
Proof.
  destruct (precache_tolerates_failures flakyNetwork resolveApp ["/a"; "/b"; "/c"] [])
    as (Hres & _ & Hstored & Hwarned & _).
  split; [exact Hres|]. split; [|split].
  - apply (Hstored "/a"); [left | reflexivity | reflexivity].
  - apply (Hstored "/c"); [right; right; left | reflexivity | reflexivity].
  - apply Hwarned; [right; left | reflexivity].
Defined.

(** *** message *)

Section Priming.
Variable network : string → FetchOutcome.
Variable resolve : string → string.

Lemma batchOk_fetchedOk u : batchOk network u = true → fetchedOk network u = true.
Proof.
  unfold batchOk, fetchedOk. destruct (network u) as [|r]; [done|].
  by intros [Hok _]%andb_true_iff.
Qed.

Lemma stored_batchOk requests :
  forallb (batchOk network) requests = true →
  ∀ u r, u ∈ requests → network u = Responded r → (u, r) ∈ stored network requests.
Proof.
  intros Hall u r Hin Hnet. apply elem_of_stored. split; [done|]. split; [done|].
  rewrite forallb_forall in Hall. specialize (Hall u).
  apply batchOk_fetchedOk in Hall; [|by apply list_elem_of_In].
  unfold fetchedOk in Hall. by rewrite Hnet in Hall.
Qed.

Lemma promiseAll_fetch requests s :
  ∃ res,
    promiseAll (map (λ u, response ← fetch network u;
                          if ok response && negb (status response =? 206)%Z
                          then mret (u, response)
                          else throw BadStatus)
                    requests) s
    = (res, s, map Fetched requests) ∧
    if forallb (batchOk network) requests
    then res = Ok (stored network requests)
    else ∃ e, res = Throw e.
Proof.
  set (checked := λ u, response ← fetch network u;
                       if ok response && negb (status response =? 206)%Z
                       then mret (u, response)
                       else throw BadStatus).
  induction requests as [|u requests IH].
  - by exists (Ok []).
  - destruct IH as (res & Hrest & Hres).
    assert (Hhead : ∃ o, checked u s = (o, s, [Fetched u]) ∧
              match network u with
              | Responded r =>
                  if ok r && negb (status r =? 206)%Z
                  then o = Ok (u, r) else o = Throw BadStatus
              | NetworkError => o = Throw NetworkFailure
              end).
    { unfold checked. run_monad.
      destruct (network u) as [|r]; [by eexists|].
      destruct (ok r && negb (status r =? 206)%Z); by eexists. }
    destruct Hhead as (o & Hhead & Ho).
    cbn [map promiseAll forallb]. rewrite Hhead, Hrest.
    eexists. split; [reflexivity|].
    rewrite stored_cons. unfold batchOk at 1.
    destruct (network u) as [|r]; [subst o; by eexists|].
    destruct (ok r) eqn:Hok; cbn [andb] in *; [|subst o; by eexists].
    destruct (negb (status r =? 206)%Z); subst o; [|by eexists].
    cbn [andb]. destruct (forallb (batchOk network) requests).
    + by subst res.
    + destruct Hres as [e ->]. by eexists.
Qed.

Lemma forEach_fetched requests s :
  forEach (λ u, emit (Fetched u)) requests s = (Ok tt, s, map Fetched requests).
Proof.
  induction requests as [|u requests IH]; [done|].
  cbn [forEach]. rewrite bind_run.
  change (emit (Fetched u) s) with (Ok tt, s, [Fetched u]).
  cbn iota beta. by rewrite IH.
Qed.

Lemma forEach_put cache ps s :
  forEach (λ p, cachePut cache p.1 p.2) ps s =
  (Ok tt, putAll cache ps s, map (λ p, Put cache p.1 p.2) ps).
Proof.
  revert s. induction ps as [|p ps IH]; intros s; [done|].
  cbn [forEach]. rewrite bind_run.
  change (cachePut cache p.1 p.2 s)
    with (Ok tt, storage_put cache p.1 p.2 s, [Put cache p.1 p.2]).
  cbn iota beta. by rewrite IH.
Qed.

Lemma puts_fetched urls : puts (map Fetched urls) = [].
Proof. induction urls as [|u urls IH]; [done|]. exact IH. Qed.

Lemma fetches_fetched urls : fetches (map Fetched urls) = urls.
Proof. induction urls as [|u urls IH]; [done|]. unfold fetches in *. simpl. by f_equal. Qed.

Lemma fetches_put cache (ps : list (string * Response)) :
  fetches (map (λ p, Put cache p.1 p.2) ps) = [].
Proof. induction ps as [|p ps IH]; [done|]. exact IH. Qed.

Lemma onMessage_prime_unfold urls s :
  ∃ e fetched,
    onMessage network resolve (CACHE_URLS urls) s =
    (if batchAccepted network (map resolve urls)
     then (Ok tt,
           putAll RUNTIME_CACHE (stored network (map resolve urls))
             (storage_open RUNTIME_CACHE s),
           map Fetched (map resolve urls)
             ++ map (λ p, Put RUNTIME_CACHE p.1 p.2) (stored network (map resolve urls)))
     else (Ok tt, storage_open RUNTIME_CACHE s,
           map Fetched fetched ++ [UnhandledRejection e])) ∧
    (forallb httpScheme (map resolve urls) = true → fetched = map resolve urls).
Proof.
  destruct (promiseAll_fetch (map resolve urls) (storage_open RUNTIME_CACHE s))
    as (res & Hfetch & Hres).
  unfold onMessage. rewrite bind_run.
  change ((mret tt : M unit) s) with (Ok tt, s, @nil Effect). cbn iota beta.
  unfold detached. rewrite bind_run.
  change (cachesOpen RUNTIME_CACHE s)
    with (Ok RUNTIME_CACHE, storage_open RUNTIME_CACHE s, @nil Effect).
  cbn iota beta. unfold cacheAddAll, batchAccepted. cbn zeta.
  destruct (forallb httpScheme (map resolve urls)); cbn [andb].
  - rewrite bind_run, Hfetch.
    destruct (forallb (batchOk network) (map resolve urls)); cbn [andb].
    + subst res.
      destruct (bool_decide (NoDup (map stripFragment (map resolve urls)))).
      * rewrite forEach_put. by exists NetworkFailure, (map resolve urls).
      * exists InvalidState, (map resolve urls). unfold throw. cbn.
        by rewrite app_nil_r.
    + destruct Hres as [e ->]. by exists e, (map resolve urls).
  - rewrite bind_run, forEach_fetched.
    exists BadScheme, (started (map resolve urls)). unfold throw. cbn.
    by rewrite app_nil_r.
Qed.

End Priming.

(** C3, as stated, fails: with three URLs of which only ["/b"] is
    unreachable, priming the runtime store stores none of them, although
    ["/a"] and ["/c"] were fetched successfully; the install handler, given
    the same list and network, stores both. *)
Lemma primeRuntimeStore_counterexample :
  flakyNetwork "https://openclaw.app/a" = Responded bundle ∧ flakyNetwork "https://openclaw.app/c" = Responded bundle ∧
  ok bundle = true ∧ flakyNetwork "https://openclaw.app/b" = NetworkError ∧
  entry RUNTIME_CACHE "https://openclaw.app/a"
    (storageOf (onMessage flakyNetwork resolveApp (CACHE_URLS ["/a"; "/b"; "/c"]) [])) = None ∧
  entry RUNTIME_CACHE "https://openclaw.app/c"
    (storageOf (onMessage flakyNetwork resolveApp (CACHE_URLS ["/a"; "/b"; "/c"]) [])) = None ∧
  puts (effectsOf (onMessage flakyNetwork resolveApp (CACHE_URLS ["/a"; "/b"; "/c"]) [])) = [] ∧
  entry CACHE_NAME "https://openclaw.app/a" (storageOf (onInstall flakyNetwork resolveApp ["/a"; "/b"; "/c"] [])) = Some bundle.
Proof. repeat split; vm_compute; reflexivity. Qed.

(** C3, amended. The prime-runtime-store command never throws to its sender
    and stores its URLs as one batch.  When every URL resolves to an http(s)
    URL, no two of them are the same up to the fragment, and every fetch
    yields a 2xx response other than a 206 (and not marked [Vary: *]), every
    URL is fetched and is then held by the runtime store with its response.  Otherwise, and so whenever the fetch
    of any one URL fails, nothing is written, every cache entry is what it
    was before, and the failure is left as an unhandled rejection. *)
Theorem primeRuntimeStore_all_or_nothing network resolve urls s :
  let out := onMessage network resolve (CACHE_URLS urls) s in
  resultOf out = Ok tt ∧
  (forallb httpScheme (map resolve urls) = true →
     fetches (effectsOf out) = map resolve urls) ∧
  (∀ u, u ∈ urls → batchOk network (resolve u) = false →
     puts (effectsOf out) = [] ∧
     ∀ name key, entry name key (storageOf out) = entry name key s) ∧
  if batchAccepted network (map resolve urls)
  then ∀ u r, u ∈ urls → network (resolve u) = Responded r →
         entry RUNTIME_CACHE (resolve u) (storageOf out) = Some r
  else puts (effectsOf out) = [] ∧
       storageOf out = storage_open RUNTIME_CACHE s ∧
       (∀ name key, entry name key (storageOf out) = entry name key s) ∧
       ∃ e, last (effectsOf out) = Some (UnhandledRejection e).
Proof.
  cbn zeta.
  destruct (onMessage_prime_unfold network resolve urls s) as (e & fetched & -> & Hfetched).
  assert (Hrejected :
    let out := (Ok tt, storage_open RUNTIME_CACHE s,
                map Fetched fetched ++ [UnhandledRejection e])
               : Result unit * CacheStorage * list Effect in
    puts (effectsOf out) = [] ∧
    storageOf out = storage_open RUNTIME_CACHE s ∧
    (∀ name key, entry name key (storageOf out) = entry name key s) ∧
    ∃ e', last (effectsOf out) = Some (UnhandledRejection e')).
  { cbn zeta. cbn [storageOf effectsOf fst snd]. split; [|split; [done|split]].
    - unfold puts. rewrite omap_app. fold (puts (map Fetched fetched)).
      by rewrite puts_fetched.
    - intros name key. apply entry_open.
    - exists e. apply last_snoc. }
  destruct (batchAccepted network (map resolve urls)) eqn:Haccepted.
  - unfold batchAccepted in Haccepted.
    apply andb_true_iff in Haccepted as [[Hscheme Hall]%andb_true_iff _].
    cbn [resultOf storageOf effectsOf fst snd].
    split; [done|]. split; [|split].
    + intros _. unfold fetches. rewrite omap_app.
      fold (fetches (map Fetched (map resolve urls))). rewrite fetches_fetched.
      fold (fetches (map (λ p, Put RUNTIME_CACHE p.1 p.2)
                       (stored network (map resolve urls)))).
      rewrite fetches_put. apply app_nil_r.
    + intros u Hin Hbad. rewrite forallb_forall in Hall.
      rewrite (Hall (resolve u)) in Hbad; [done|].
      apply list_elem_of_In, list_elem_of_fmap. by exists u.
    + intros u r Hin Hnet. apply putAll_entry.
      * intros r' Hr'. apply elem_of_stored in Hr' as (_ & Hnet' & _). congruence.
      * apply storage_lookup_open.
      * left. apply stored_batchOk; [done | | done].
        apply list_elem_of_fmap. by exists u.
  - cbn zeta in Hrejected. destruct Hrejected as (Hputs & Hstore & Hframe & Hlast).
    split; [done|]. split; [|split; [by intros|done]].
    intros Hscheme. rewrite (Hfetched Hscheme). cbn [effectsOf snd].
    unfold fetches. rewrite omap_app. fold (fetches (map Fetched (map resolve urls))).
    rewrite fetches_fetched. apply app_nil_r.
Qed.

Lemma primeRuntimeStore_all_or_nothing_witness :
  entry RUNTIME_CACHE "https://openclaw.app/a"
    (storageOf (onMessage flakyNetwork resolveApp (CACHE_URLS ["/a"; "/c"]) [])) = Some bundle ∧
  puts (effectsOf (onMessage flakyNetwork resolveApp (CACHE_URLS ["/a"; "/b"; "/c"]) [])) = [] ∧
  puts (effectsOf (onMessage flakyNetwork resolveApp (CACHE_URLS ["/a"; "/a"]) [])) = [] ∧
  fetches (effectsOf (onMessage flakyNetwork resolveApp (CACHE_URLS ["/a"; "/c"]) []))
    = ["https://openclaw.app/a"; "https://openclaw.app/c"].
Proof.
  pose proof (primeRuntimeStore_all_or_nothing flakyNetwork resolveApp ["/a"; "/c"] [])
    as Hgood.
  pose proof (primeRuntimeStore_all_or_nothing flakyNetwork resolveApp ["/a"; "/b"; "/c"] [])
    as Hbad.
  pose proof (primeRuntimeStore_all_or_nothing flakyNetwork resolveApp ["/a"; "/a"] [])
    as Htwice.
  cbn zeta in Hgood, Hbad, Htwice.
  destruct Hgood as (_ & Hfetch & _ & Hgood). destruct Hbad as (_ & _ & Hbad & _).
  destruct Htwice as (_ & _ & _ & Htwice).
  assert (Haccepted : batchAccepted flakyNetwork (map resolveApp ["/a"; "/c"]) = true)
    by (vm_compute; reflexivity).
  assert (Hrepeated : batchAccepted flakyNetwork (map resolveApp ["/a"; "/a"]) = false)
    by (vm_compute; reflexivity).
  rewrite Haccepted in Hgood. rewrite Hrepeated in Htwice.
  split; [|split; [|split]].
  - apply (Hgood "/a"); [left | reflexivity].
  - apply (Hbad "/b"); [right; left | reflexivity].
  - exact (proj1 Htwice).
  - apply Hfetch. reflexivity.
Defined.

(** ** The offline fallback *)

Lemma allStoredOk_deleteAll names s : allStoredOk s → allStoredOk (deleteAll names s).
Proof.
  revert s. induction names as [|n names IH]; intros s Hs; [done|].
  apply IH. by apply allStoredOk_delete.
Qed.

Lemma allStoredOk_shape network request cacheName s s' t :
  WriteShape network request cacheName s s' t → allStoredOk s → allStoredOk s'.
Proof.
  intros [s1 t1 [->| ->] _ | r t1 _ Hok _] Hs; [done | by apply allStoredOk_open |].
  by apply allStoredOk_put, allStoredOk_open.
Qed.

Lemma storageAfter_allStoredOk network resolve ev s :
  allStoredOk s → allStoredOk (storageAfter network resolve ev s).
Proof.
  intros Hs. destruct ev as [manifest| |request|data]; simpl.
  - rewrite onInstall_unfold. cbn [storageOf fst snd].
    apply allStoredOk_putAll; [apply stored_all_ok | by apply allStoredOk_open].
  - rewrite onActivate_unfold. by apply allStoredOk_deleteAll.
  - rewrite onFetch_classify.
    destruct (classify request); [done|..]; rewrite fmap_Some_run; cbn [storageOf fst snd].
    + eapply allStoredOk_shape; [|done].
      apply (executors_shape network resolve (cacheFirst network)). left.
    + eapply allStoredOk_shape; [|done].
      apply (executors_shape network resolve (networkFirst network resolve)).
      right; left.
    + eapply allStoredOk_shape; [|done].
      apply (executors_shape network resolve (staleWhileRevalidate network)).
      right; right; left.
    + eapply allStoredOk_shape; [|done].
      apply (executors_shape network resolve (networkFirst network resolve)).
      right; left.
  - destruct data as [|urls|]; [done| |done].
    destruct (onMessage_prime_unfold network resolve urls s) as (e & fetched & -> & _).
    destruct (batchAccepted network (map resolve urls)); cbn [storageOf fst snd].
    + apply allStoredOk_putAll; [apply stored_all_ok | by apply allStoredOk_open].
    + by apply allStoredOk_open.
Qed.

(** The worker only ever leaves successful responses in its caches. *)
Lemma workerMade_allStoredOk s : WorkerMade s → allStoredOk s.
Proof.
  induction 1 as [|network resolve ev s _ IH]; [constructor|].
  by apply storageAfter_allStoredOk.
Qed.

Lemma offlinePage_selfContained : selfContained offlinePage = true.
Proof. vm_compute. reflexivity. Qed.

(** C9, as stated, fails for the cached root document: the install handler
    stores whatever 2xx response the server gives for ["/"], here JSON, and
    that is what a document request gets back when its fetch throws and its
    own lookup misses. *)
Lemma offline_fallback_counterexample :
  classify pageRequest = DOCUMENT ∧
  jsonRootNetwork (url pageRequest) = NetworkError ∧
  storage_match (url pageRequest)
    (storageOf (onInstall jsonRootNetwork resolveApp PRECACHE_URLS [])) = None ∧
  resultOf (onFetch jsonRootNetwork resolveApp pageRequest
              (storageOf (onInstall jsonRootNetwork resolveApp PRECACHE_URLS [])))
    = Ok (Some jsonRoot) ∧
  contentType jsonRoot = Some "application/json" ∧
  includes "application/json" "html" = false.
Proof. repeat split; vm_compute; reflexivity. Qed.

(** C9, amended. For a document request whose fetch throws and whose own
    store lookup misses, the worker answers, without throwing, with the
    response cached under ["/"] exactly as it was stored, if some cache
    holds one, and with the generated offline page otherwise.  The cached
    root has a 2xx status whenever the caches hold successful responses only,
    as they do when the worker alone filled them; its content type is the one
    it was stored with.  The generated page has status 200, content type
    text/html, and the fixed body [offlinePage], which refers to no external
    resource. *)
Theorem offline_fallback_response network resolve request s :
  classify request = DOCUMENT →
  network (url request) = NetworkError →
  storage_match (url request) s = None →
  ∃ response,
    onFetch network resolve request s = (Ok (Some response), s, [Fetched (url request)]) ∧
    match storage_match (resolve "/") s with
    | Some root =>
        response = root ∧
        (allStoredOk s → ok response = true) ∧
        (WorkerMade s → ok response = true)
    | None =>
        response = offlineDocument ∧
        status response = 200%Z ∧ ok response = true ∧
        contentType response = Some "text/html" ∧
        body response = offlinePage
    end ∧
    selfContained offlinePage = true.
Proof.
  intros Hdoc Hdown Hmiss.
  pose proof (onFetch_last_resort network resolve request s Hdoc Hdown Hmiss) as Hrun.
  destruct (storage_match (resolve "/") s) as [root|] eqn:Hroot.
  - exists root. split; [exact Hrun|]. split; [|apply offlinePage_selfContained].
    split; [done|]. split.
    + intros Hs. by eapply allStoredOk_match.
    + intros Hs. eapply allStoredOk_match; [by apply workerMade_allStoredOk | done].
  - exists offlineDocument. split; [exact Hrun|].
    split; [done | apply offlinePage_selfContained].
Qed.

Lemma shellStorage_allStoredOk : allStoredOk shellStorage.
Proof.
  constructor; [|constructor]. simpl. by apply map_Forall_singleton.
Qed.

Lemma offline_fallback_response_witness :
  (∃ response,
     onFetch offlineNetwork resolveApp pageRequest [] =
       (Ok (Some response), [], [Fetched (url pageRequest)]) ∧
     status response = 200%Z ∧ contentType response = Some "text/html") ∧
  (∃ response,
     onFetch offlineNetwork resolveApp pageRequest shellStorage =
       (Ok (Some response), shellStorage, [Fetched (url pageRequest)]) ∧
     response = homeDocument ∧ ok response = true).
Proof.
  assert (Hdoc : classify pageRequest = DOCUMENT) by (vm_compute; reflexivity).
  assert (Hdown : offlineNetwork (url pageRequest) = NetworkError) by reflexivity.
  split.
  - assert (Hmiss : storage_match (url pageRequest) [] = None) by reflexivity.
    destruct (offline_fallback_response offlineNetwork resolveApp pageRequest [] Hdoc Hdown Hmiss)
      as (response & Hrun & Hshape & _).
    change (storage_match (resolveApp "/") []) with (@None Response) in Hshape.
    destruct Hshape as (_ & Hstatus & _ & Htype & _).
    exists response. split; [exact Hrun|]. split; [exact Hstatus | exact Htype].
  - assert (Hmiss : storage_match (url pageRequest) shellStorage = None)
      by (vm_compute; reflexivity).
    destruct (offline_fallback_response offlineNetwork resolveApp pageRequest shellStorage
                Hdoc Hdown Hmiss) as (response & Hrun & Hshape & _).
    assert (Hroot : storage_match (resolveApp "/") shellStorage = Some homeDocument)
      by (vm_compute; reflexivity).
    rewrite Hroot in Hshape. destruct Hshape as (Heq & Hok & _).
    exists response. split; [exact Hrun|]. split; [exact Heq|].
    apply Hok, shellStorage_allStoredOk.
Defined.

(** ** The fetch handler: what it intercepts and where it writes *)

Lemma prefix_app needle hay :
  String.prefix needle hay = true ↔ ∃ rest, hay = needle +:+ rest.
Proof.
  revert needle. induction hay as [|b hay IH]; intros [|a needle]; simpl.
  - split; [intros _; by exists "" | done].
  - split; [done | intros [rest Hrest]; discriminate].
  - split; [intros _; by exists (String b hay) | done].
  - destruct (Ascii.ascii_dec a b) as [->|Hne].
    + rewrite IH. split; intros [rest Hrest]; exists rest; [by rewrite Hrest|].
      by injection Hrest.
    + split; [done | intros [rest Hrest]]. injection Hrest as Hb _. by destruct Hne.
Qed.

Lemma includes_app hay needle :
  includes hay needle = true ↔ ∃ before after, hay = before +:+ needle +:+ after.
Proof.
  induction hay as [|a hay IH]; cbn [includes]; rewrite orb_true_iff, prefix_app.
  - split.
    + intros [[rest Hrest]|Hfalse]; [|done]. by exists "", rest.
    + intros (before & after & Heq). left. exists after.
      destruct before; [done | discriminate].
  - rewrite IH. split.
    + intros [[rest Hrest]|(before & after & Heq)].
      * by exists "", rest.
      * exists (String a before), after. by rewrite Heq.
    + intros (before & after & Heq). destruct before as [|b before].
      * left. by exists after.
      * right. exists before, after. by injection Heq.
Qed.

Lemma endsWith_app hay needle :
  endsWith hay needle = true ↔ ∃ stem, hay = stem +:+ needle.
Proof.
  induction hay as [|a hay IH]; cbn [endsWith]; rewrite orb_true_iff, String.eqb_eq.
  - split.
    + intros [<-|Hfalse]; [|done]. by exists "".
    + intros [stem Heq]. left. destruct stem; [done | discriminate].
  - rewrite IH. split.
    + intros [<-|[stem Heq]]; [by exists ""|].
      exists (String a stem). by rewrite Heq.
    + intros [stem Heq]. destruct stem as [|b stem].
      * by left.
      * right. exists stem. by injection Heq.
Qed.

Lemma classify_bypassed request :
  classify request = BYPASS ↔ bypassed request = true.
Proof.
  unfold classify, bypassed.
  destruct (String.eqb (hostname request) "api.anthropic.com"); [done|].
  destruct (negb (startsWith (url request) "http")); [done|]. simpl.
  destruct (isFontHost request); [done|].
  destruct (acceptsHtml request); [done|].
  by destruct (isScriptOrStyle request).
Qed.

(** X1. A request to api.anthropic.com, or one whose URL does not start with
    http, is left alone whatever its accept header, host or path say: the
    handler gives no response, makes no fetch, and neither reads nor writes
    any cache. *)
Theorem onFetch_bypass network resolve request s :
  bypassed request = true →
  classify request = BYPASS ∧
  onFetch network resolve request s = (Ok None, s, []).
Proof.
  intros Hby. apply classify_bypassed in Hby.
  split; [done|]. by rewrite onFetch_classify, Hby.
Qed.

Lemma onFetch_bypass_witness :
  acceptsHtml framedRequest = true ∧
  onFetch offlineNetwork resolveApp framedRequest shellStorage = (Ok None, shellStorage, []).
Proof.
  split; [vm_compute; reflexivity|].
  apply (onFetch_bypass offlineNetwork resolveApp framedRequest shellStorage).
  vm_compute. reflexivity.
Defined.

(** X4. The handler's two textual tests, spelled out: a request counts as a
    script or style sheet exactly when its path ends with [.js] or [.css],
    and as a document request exactly when it has an accept header that
    contains [text/html] somewhere. *)
Theorem textual_tests request :
  (isScriptOrStyle request = true ↔
     ∃ stem, pathname request = stem +:+ ".js" ∨ pathname request = stem +:+ ".css") ∧
  (acceptsHtml request = true ↔
     ∃ before after, accept request = Some (before +:+ "text/html" +:+ after)).
Proof.
  split.
  - unfold isScriptOrStyle. rewrite orb_true_iff, !endsWith_app. split.
    + intros [[stem Heq]|[stem Heq]]; exists stem; [by left | by right].
    + intros [stem [Heq|Heq]]; [left | right]; by exists stem.
  - unfold acceptsHtml. destruct (accept request) as [a|].
    + rewrite includes_app. split; intros (before & after & Heq); exists before, after.
      * by rewrite Heq.
      * by injection Heq.
    + split; [done | intros (before & after & Heq); discriminate].
Qed.

Lemma textual_tests_witness :
  isScriptOrStyle scriptRequest = true ∧ acceptsHtml pageRequest = true.
Proof.
  split.
  - apply (proj1 (textual_tests scriptRequest)). exists "/static/js/bundle". by left.
  - apply (proj2 (textual_tests pageRequest)). by exists "", ",application/xhtml+xml".
Defined.

Lemma storage_put_names name key r (s : CacheStorage) :
  (storage_put name key r s).*1 = s.*1.
Proof.
  induction s as [|[n c] s IH]; simpl; [done|].
  case_decide; simpl; [done | by f_equal].
Qed.

Lemma storage_open_names name (s : CacheStorage) :
  (storage_open name s).*1 = s.*1 ∨
  (storage_lookup name s = None ∧ (storage_open name s).*1 = s.*1 ++ [name]).
Proof.
  unfold storage_open. destruct (storage_lookup name s); [by left|].
  right. split; [done|]. by rewrite fmap_app.
Qed.

Lemma storage_lookup_open_ne name' name (s : CacheStorage) :
  name' ≠ name → storage_lookup name' (storage_open name s) = storage_lookup name' s.
Proof.
  intros Hne. unfold storage_open. destruct (storage_lookup name s); [done|].
  rewrite storage_lookup_app. destruct (storage_lookup name' s); [done|].
  simpl. case_decide; [by subst | done].
Qed.

(** What each executor answers, by outcome of its fetch. *)
Lemma executors_results network resolve request cacheName s :
  resultOf (cacheFirst network request cacheName s) =
    Ok (default (match network (url request) with
                 | Responded r => r
                 | NetworkError => offline503
                 end) (storage_match (url request) s)) ∧
  resultOf (networkFirst network resolve request cacheName s) =
    Ok (match network (url request) with
        | Responded r => r
        | NetworkError => networkFirstFallback resolve request s
        end) ∧
  resultOf (staleWhileRevalidate network request cacheName s) =
    Ok (default (match network (url request) with
                 | Responded r => r
                 | NetworkError => empty503
                 end) (entry cacheName (url request) s)).
Proof.
  rewrite cacheFirst_unfold, networkFirst_unfold, staleWhileRevalidate_unfold. cbn zeta.
  rewrite entry_open.
  destruct (storage_match (url request) s) as [stored|];
    destruct (entry cacheName (url request) s) as [held|];
    destruct (network (url request)) as [|answer]; try destruct (ok answer); done.
Qed.

Lemma executors_fetches network resolve request cacheName s :
  fetches (effectsOf (cacheFirst network request cacheName s))
    = match storage_match (url request) s with
      | Some _ => []
      | None => [url request]
      end ∧
  fetches (effectsOf (networkFirst network resolve request cacheName s)) = [url request] ∧
  fetches (effectsOf (staleWhileRevalidate network request cacheName s)) = [url request].
Proof.
  rewrite cacheFirst_unfold, networkFirst_unfold, staleWhileRevalidate_unfold. cbn zeta.
  destruct (storage_match (url request) s) as [stored|];
    destruct (network (url request)) as [|answer]; try destruct (ok answer); done.
Qed.

(** X2. The outcome of the fetch never keeps the handler from answering
    (the cache store operations are taken to succeed, as throughout this
    file): every request that is not left to the browser gets a response, with
    at most one network fetch, for the request's own URL.  When that fetch
    throws, the response is, for a font, the stored response or else the
    ["Offline"] 503; for a script or style sheet, the runtime store's entry
    or else an empty 503; and for a document or any other request, the
    stored response, else the cached root, else the offline page. *)
Theorem onFetch_answers network resolve request s :
  bypassed request = false →
  let out := onFetch network resolve request s in
  ∃ response,
    resultOf out = Ok (Some response) ∧
    (fetches (effectsOf out) = [] ∨ fetches (effectsOf out) = [url request]) ∧
    (network (url request) = NetworkError →
     response =
       match classify request with
       | FONT => default offline503 (storage_match (url request) s)
       | STATIC_ASSET => default empty503 (entry RUNTIME_CACHE (url request) s)
       | _ => networkFirstFallback resolve request s
       end).
Proof.
  intros Hby. cbn zeta. rewrite onFetch_classify.
  destruct (classify request) eqn:Hclass.
  - apply classify_bypassed in Hclass. congruence.
  - destruct (executors_results network resolve request CACHE_NAME s) as (Hres & _ & _).
    destruct (executors_fetches network resolve request CACHE_NAME s) as (Hfetch & _ & _).
    eexists. rewrite fmap_Some_run, Hres. cbn [resultOf effectsOf fst snd].
    split; [done|]. split.
    + rewrite Hfetch. destruct (storage_match (url request) s); [by left | by right].
    + by intros ->.
  - destruct (executors_results network resolve request CACHE_NAME s) as (_ & Hres & _).
    destruct (executors_fetches network resolve request CACHE_NAME s) as (_ & Hfetch & _).
    eexists. rewrite fmap_Some_run, Hres. cbn [resultOf effectsOf fst snd].
    split; [done|]. split; [by right | by intros ->].
  - destruct (executors_results network resolve request RUNTIME_CACHE s) as (_ & _ & Hres).
    destruct (executors_fetches network resolve request RUNTIME_CACHE s) as (_ & _ & Hfetch).
    eexists. rewrite fmap_Some_run, Hres. cbn [resultOf effectsOf fst snd].
    split; [done|]. split; [by right | by intros ->].
  - destruct (executors_results network resolve request RUNTIME_CACHE s) as (_ & Hres & _).
    destruct (executors_fetches network resolve request RUNTIME_CACHE s) as (_ & Hfetch & _).
    eexists. rewrite fmap_Some_run, Hres. cbn [resultOf effectsOf fst snd].
    split; [done|]. split; [by right | by intros ->].
Qed.

Lemma onFetch_answers_witness :
  ∃ response,
    resultOf (onFetch offlineNetwork resolveApp dataRequest []) = Ok (Some response) ∧
    response = offlineDocument ∧
    fetches (effectsOf (onFetch offlineNetwork resolveApp dataRequest [])) = [url dataRequest].
Proof.
  destruct (onFetch_answers offlineNetwork resolveApp dataRequest [])
    as (response & Hres & Hfetch & Hdown); [vm_compute; reflexivity|].
  exists response. split; [exact Hres|]. split.
  - rewrite (Hdown eq_refl). vm_compute. reflexivity.
  - destruct Hfetch as [Hnone|Hone]; [|exact Hone].
    vm_compute in Hnone. discriminate Hnone.
Defined.

(** X3. A fetch event writes at most one cache entry.  When it writes, the
    entry is the 2xx response the network gave for the request, stored under
    the request's URL, in the precache store for fonts and documents and in
    the runtime store for scripts, style sheets and everything else; and that
    entry is then held by that store. *)
Theorem onFetch_writes network resolve request s :
  let out := onFetch network resolve request s in
  puts (effectsOf out) = [] ∨
  ∃ name r,
    storeFor (classify request) = Some name ∧
    network (url request) = Responded r ∧ ok r = true ∧
    puts (effectsOf out) = [(name, url request, r)] ∧
    entry name (url request) (storageOf out) = Some r.
Proof.
  cbn zeta. rewrite onFetch_classify.
  assert (Hshape : ∀ exec name,
    exec ∈ executors network resolve →
    puts (effectsOf ((Some <$> exec request name) s)) = [] ∨
    ∃ r, network (url request) = Responded r ∧ ok r = true ∧
      puts (effectsOf ((Some <$> exec request name) s)) = [(name, url request, r)] ∧
      entry name (url request) (storageOf ((Some <$> exec request name) s)) = Some r).
  { intros exec name Hexec. rewrite fmap_Some_run. cbn [effectsOf storageOf fst snd].
    destruct (executors_shape network resolve exec request name s Hexec)
      as [s' t _ Hputs | r t Hnet Hok Hputs]; [by left|].
    right. exists r. repeat split; try done. apply entry_put_open. }
  destruct (classify request); [by left|..].
  - destruct (Hshape (cacheFirst network) CACHE_NAME) as [Hnone|(r & Hr)];
      [left | by left | right; by exists CACHE_NAME, r].
  - destruct (Hshape (networkFirst network resolve) CACHE_NAME) as [Hnone|(r & Hr)];
      [right; left | by left | right; by exists CACHE_NAME, r].
  - destruct (Hshape (staleWhileRevalidate network) RUNTIME_CACHE) as [Hnone|(r & Hr)];
      [right; right; left | by left | right; by exists RUNTIME_CACHE, r].
  - destruct (Hshape (networkFirst network resolve) RUNTIME_CACHE) as [Hnone|(r & Hr)];
      [right; left | by left | right; by exists RUNTIME_CACHE, r].
Qed.

Example onFetch_writes_script :
  puts (effectsOf (onFetch bundleNetwork resolveApp scriptRequest []))
    = [(RUNTIME_CACHE, url scriptRequest, bundle)] ∧
  puts (effectsOf (onFetch bundleNetwork resolveApp pageRequest []))
    = [(CACHE_NAME, url pageRequest, bundle)].
Proof. split; vm_compute; reflexivity. Qed.

(** ** The executors: answers and footprint *)

(** X5. No outcome of the fetch makes an executor throw (the cache store
    operations are taken to succeed, as throughout this file); each outcome
    has its answer.  When the network responds, network-first returns that
    response, and cache-first and stale-while-revalidate return their stored
    entry if they have one and that response otherwise.  When the fetch
    throws, cache-first returns its stored entry or the ["Offline"] 503,
    network-first its fallback, and stale-while-revalidate its stored entry
    or an empty 503.  Network-first and stale-while-revalidate make exactly
    one fetch, for the request's URL; cache-first makes that one fetch
    exactly when its store lookup misses. *)
Theorem executors_answer_every_outcome network resolve request cacheName s :
  let stored := storage_match (url request) s in
  let held := entry cacheName (url request) s in
  match network (url request) with
  | Responded r =>
      resultOf (cacheFirst network request cacheName s) = Ok (default r stored) ∧
      resultOf (networkFirst network resolve request cacheName s) = Ok r ∧
      resultOf (staleWhileRevalidate network request cacheName s) = Ok (default r held)
  | NetworkError =>
      resultOf (cacheFirst network request cacheName s) = Ok (default offline503 stored) ∧
      resultOf (networkFirst network resolve request cacheName s)
        = Ok (networkFirstFallback resolve request s) ∧
      resultOf (staleWhileRevalidate network request cacheName s)
        = Ok (default empty503 held)
  end ∧
  fetches (effectsOf (cacheFirst network request cacheName s))
    = match stored with
      | Some _ => []
      | None => [url request]
      end ∧
  fetches (effectsOf (networkFirst network resolve request cacheName s)) = [url request] ∧
  fetches (effectsOf (staleWhileRevalidate network request cacheName s)) = [url request].
Proof.
  cbn zeta.
  destruct (executors_results network resolve request cacheName s) as (Hcf & Hnf & Hswr).
  split; [|apply executors_fetches].
  rewrite Hcf, Hnf, Hswr. by destruct (network (url request)).
Qed.

Example executors_offline_answers :
  resultOf (cacheFirst offlineNetwork fontRequest CACHE_NAME []) = Ok offline503 ∧
  resultOf (networkFirst offlineNetwork resolveApp dataRequest RUNTIME_CACHE [])
    = Ok offlineDocument ∧
  resultOf (staleWhileRevalidate offlineNetwork scriptRequest RUNTIME_CACHE [])
    = Ok empty503.
Proof. repeat split; vm_compute; reflexivity. Qed.

(** X6. An executor's footprint is one entry: every entry other than the
    one for the request's URL in the target cache is what it was before,
    every cache other than the target is untouched, and no cache is removed
    or renamed (at most the target cache is created, after the others). *)
Theorem executors_frame network resolve exec request cacheName s :
  exec ∈ executors network resolve →
  let out := exec request cacheName s in
  (∀ name key, name ≠ cacheName ∨ key ≠ url request →
     entry name key (storageOf out) = entry name key s) ∧
  (∀ name, name ≠ cacheName →
     storage_lookup name (storageOf out) = storage_lookup name s) ∧
  ((storageOf out).*1 = s.*1 ∨ (storageOf out).*1 = s.*1 ++ [cacheName]).
Proof.
  intros Hexec. cbn zeta.
  destruct (executors_shape network resolve exec request cacheName s Hexec)
    as [s' t Hs' _ | r t _ _ _].
  - destruct Hs' as [->| ->]; [by repeat split; try left|].
    split; [intros; apply entry_open|]. split.
    + intros name Hne. by apply storage_lookup_open_ne.
    + destruct (storage_open_names cacheName s) as [Hsame|[_ Hnew]]; [by left | by right].
  - split; [|split].
    + intros name key Hne. rewrite entry_put, entry_open.
      destruct (decide (name = cacheName ∧ key = url request)) as [[-> ->]|_]; [|done].
      by destruct Hne.
    + intros name Hne. rewrite storage_lookup_put.
      destruct (decide (name = cacheName)); [done|]. by apply storage_lookup_open_ne.
    + rewrite storage_put_names.
      destruct (storage_open_names cacheName s) as [Hsame|[_ Hnew]]; [by left | by right].
Qed.

Lemma executors_frame_witness :
  entry CACHE_NAME (url fontRequest)
    (storageOf (staleWhileRevalidate bundleNetwork scriptRequest RUNTIME_CACHE fontStorage))
  = Some fontFile.
Proof.
  assert (Hexec : staleWhileRevalidate bundleNetwork ∈ executors bundleNetwork resolveApp)
    by (right; right; left).
  destruct (executors_frame bundleNetwork resolveApp _ scriptRequest RUNTIME_CACHE
              fontStorage Hexec) as (Hentry & _ & _).
  rewrite Hentry; [vm_compute; reflexivity|]. left. discriminate.
Defined.

(** ** Round trips through the caches *)

Lemma holder_None key (s : CacheStorage) :
  holder key s = None ↔ storage_match key s = None.
Proof.
  induction s as [|[n c] s IH]; simpl; [done|].
  destruct (c !! key); [split; discriminate | exact IH].
Qed.

Lemma holder_app key (s s' : CacheStorage) :
  holder key (s ++ s') =
  match holder key s with
  | Some n => Some n
  | None => holder key s'
  end.
Proof.
  induction s as [|[n c] s IH]; simpl; [done|].
  by destruct (c !! key).
Qed.

Lemma holder_open key name (s : CacheStorage) :
  holder key (storage_open name s) = holder key s.
Proof.
  unfold storage_open. destruct (storage_lookup name s); [done|].
  rewrite holder_app. simpl. rewrite lookup_empty. by destruct (holder key s).
Qed.

(** A write into the cache that answers for the key, or for a key no cache
    holds, is what the storage-wide lookup then finds. *)
Lemma storage_match_put name key r (s : CacheStorage) :
  is_Some (storage_lookup name s) →
  holder key s = None ∨ holder key s = Some name →
  storage_match key (storage_put name key r s) = Some r.
Proof.
  induction s as [|[n c] s IH]; simpl; intros Hsome Hholder.
  - by destruct Hsome.
  - destruct (decide (n = name)) as [->|Hne]; simpl.
    + by rewrite lookup_insert_eq.
    + destruct (c !! key) eqn:Hc.
      * destruct Hholder as [Hh|Hh]; [done | by injection Hh].
      * by apply IH.
Qed.

Lemma storage_open_older name (older newer : CacheStorage) :
  storage_lookup name older = None →
  storage_open name (older ++ newer) = older ++ storage_open name newer.
Proof.
  intros Hold. unfold storage_open. rewrite storage_lookup_app, Hold.
  destruct (storage_lookup name newer); [done|]. by rewrite app_assoc.
Qed.

Lemma storage_put_older name key r (older newer : CacheStorage) :
  storage_lookup name older = None →
  storage_put name key r (older ++ newer) = older ++ storage_put name key r newer.
Proof.
  induction older as [|[n c] older IH]; simpl; [done|].
  destruct (decide (n = name)); [done|]. intros Hold. by rewrite IH.
Qed.

Lemma staleWhileRevalidate_serves network request cacheName s cached :
  entry cacheName (url request) s = Some cached →
  resultOf (staleWhileRevalidate network request cacheName s) = Ok cached.
Proof.
  intros Hhit. rewrite staleWhileRevalidate_unfold. cbn zeta.
  rewrite entry_open, Hhit.
  destruct (network (url request)) as [|r]; [done|]. by destruct (ok r).
Qed.

Lemma storage_match_holder name key r (s : CacheStorage) :
  entry name key s = Some r →
  holder key s = Some name →
  storage_match key s = Some r.
Proof.
  unfold entry. induction s as [|[n c] s IH]; simpl; [done|].
  destruct (decide (n = name)) as [->|Hne]; simpl.
  - by intros ->.
  - destruct (c !! key); [intros _ [= Hn]; by destruct Hne | exact IH].
Qed.

(** X7. On a 2xx answer network-first returns that answer and issues
    exactly one [cache.put]: that response, under the request's URL, to the
    target cache.  And whenever the target cache holds a copy for the
    request's URL and is the cache that answers [caches.match] for it, a
    network-first whose fetch throws returns that copy. *)
Theorem networkFirst_serves_target_copy network resolve request cacheName s :
  (∀ r, network (url request) = Responded r → ok r = true →
     resultOf (networkFirst network resolve request cacheName s) = Ok r ∧
     puts (effectsOf (networkFirst network resolve request cacheName s))
       = [(cacheName, url request, r)]) ∧
  (∀ copy, entry cacheName (url request) s = Some copy →
     holder (url request) s = Some cacheName →
     network (url request) = NetworkError →
     ∀ cacheName',
       networkFirst network resolve request cacheName' s
       = (Ok copy, s, [Fetched (url request)])).
Proof.
  split.
  - intros r Hnet Hok. by rewrite networkFirst_unfold, Hnet, Hok.
  - intros copy Hentry Hholder Hdown cacheName'.
    rewrite networkFirst_unfold, Hdown. unfold networkFirstFallback.
    by rewrite (storage_match_holder _ _ _ _ Hentry Hholder).
Qed.

Lemma networkFirst_serves_target_copy_witness :
  puts (effectsOf (networkFirst bundleNetwork resolveApp pageRequest CACHE_NAME []))
    = [(CACHE_NAME, url pageRequest, bundle)] ∧
  networkFirst offlineNetwork resolveApp scriptRequest RUNTIME_CACHE scriptStorage
    = (Ok bundle, scriptStorage, [Fetched (url scriptRequest)]).
Proof.
  destruct (networkFirst_serves_target_copy bundleNetwork resolveApp pageRequest
              CACHE_NAME []) as [Honline _].
  destruct (networkFirst_serves_target_copy offlineNetwork resolveApp scriptRequest
              RUNTIME_CACHE scriptStorage) as [_ Hoffline].
  split.
  - exact (proj2 (Honline bundle eq_refl eq_refl)).
  - apply (Hoffline bundle); vm_compute; reflexivity.
Defined.

(** X8. [caches.match] answers from the oldest cache that holds the URL.
    So when a cache created before the target cache already holds the
    request's URL, the copy network-first stores on success is not the one
    its own fallback serves: a later network-first whose fetch throws still
    returns the older entry. *)
Theorem networkFirst_older_cache_shadows network resolve request cacheName older newer
    r old :
  network (url request) = Responded r →
  ok r = true →
  storage_match (url request) older = Some old →
  storage_lookup cacheName older = None →
  let online := networkFirst network resolve request cacheName (older ++ newer) in
  entry cacheName (url request) (storageOf online) = Some r ∧
  ∀ down resolve' cacheName',
    down (url request) = NetworkError →
    resultOf (networkFirst down resolve' request cacheName' (storageOf online)) = Ok old.
Proof.
  intros Hnet Hok Hold Hfresh. cbn zeta. rewrite networkFirst_unfold, Hnet, Hok.
  cbn [storageOf fst snd]. split; [apply entry_put_open|].
  intros down resolve' cacheName' Hdown.
  rewrite networkFirst_unfold, Hdown. cbn [resultOf fst].
  unfold networkFirstFallback.
  rewrite storage_open_older, storage_put_older, storage_match_app, Hold by done.
  done.
Qed.

Lemma networkFirst_older_cache_shadows_witness :
  entry CACHE_NAME (url pageRequest)
    (storageOf (networkFirst bundleNetwork resolveApp pageRequest CACHE_NAME previousStorage))
  = Some bundle ∧
  resultOf (networkFirst offlineNetwork resolveApp pageRequest CACHE_NAME
              (storageOf (networkFirst bundleNetwork resolveApp pageRequest CACHE_NAME
                            previousStorage)))
  = Ok homeDocument.
Proof.
  destruct (networkFirst_older_cache_shadows bundleNetwork resolveApp pageRequest CACHE_NAME
              [("openclaw-v1", {[ url pageRequest := homeDocument ]})] [(CACHE_NAME, ∅)]
              bundle homeDocument eq_refl eq_refl)
    as (Hstored & Hlater); [vm_compute; reflexivity | reflexivity |].
  split; [exact Hstored|]. by apply Hlater.
Defined.

(** X9. Cache-first fetches a URL at most once: after a miss answered by a
    2xx response, every later cache-first for the same request returns that
    response without any fetch or write, whatever the network does then. *)
Theorem cacheFirst_fetches_once network request cacheName s r :
  storage_match (url request) s = None →
  network (url request) = Responded r →
  ok r = true →
  let first := cacheFirst network request cacheName s in
  resultOf first = Ok r ∧
  ∀ later cacheName',
    cacheFirst later request cacheName' (storageOf first) = (Ok r, storageOf first, []).
Proof.
  intros Hmiss Hnet Hok. cbn zeta. rewrite cacheFirst_unfold, Hmiss, Hnet, Hok.
  cbn [resultOf storageOf fst snd]. split; [done|].
  intros later cacheName'. rewrite cacheFirst_unfold, storage_match_put; [done | |].
  - apply storage_lookup_open.
  - left. rewrite holder_open. by apply holder_None.
Qed.

Lemma cacheFirst_fetches_once_witness :
  cacheFirst offlineNetwork fontRequest CACHE_NAME
    (storageOf (cacheFirst fontNetwork fontRequest CACHE_NAME []))
  = (Ok fontFile, storageOf (cacheFirst fontNetwork fontRequest CACHE_NAME []), []).
Proof.
  destruct (cacheFirst_fetches_once fontNetwork fontRequest CACHE_NAME [] fontFile
              eq_refl eq_refl eq_refl) as [_ Hlater].
  apply Hlater.
Defined.

(** X10. Stale-while-revalidate looks in the target cache only.  When that
    cache has no entry for the request, entries of other caches
    notwithstanding, the answer is the network's response as received, of
    any status, stored only if it is 2xx; and when the fetch throws, the
    answer is an empty response with status 503 and nothing is stored. *)
Theorem staleWhileRevalidate_miss network request cacheName s :
  entry cacheName (url request) s = None →
  let out := staleWhileRevalidate network request cacheName s in
  match network (url request) with
  | Responded r =>
      resultOf out = Ok r ∧
      entry cacheName (url request) (storageOf out) = (if ok r then Some r else None)
  | NetworkError =>
      resultOf out = Ok empty503 ∧ status empty503 = 503%Z ∧ body empty503 = "" ∧
      entry cacheName (url request) (storageOf out) = None
  end.
Proof.
  intros Hmiss. cbn zeta. rewrite staleWhileRevalidate_unfold. cbn zeta.
  rewrite entry_open, Hmiss.
  destruct (network (url request)) as [|r]; cbn [resultOf storageOf fst snd default].
  - by rewrite entry_open.
  - destruct (ok r); cbn [resultOf storageOf fst snd]; (split; [done|]).
    + apply entry_put_open.
    + by rewrite entry_open.
Qed.

Lemma staleWhileRevalidate_miss_witness :
  storage_match (url fontRequest) fontStorage = Some fontFile ∧
  resultOf (staleWhileRevalidate offlineNetwork fontRequest RUNTIME_CACHE fontStorage)
  = Ok empty503.
Proof.
  split; [vm_compute; reflexivity|].
  assert (Hmiss : entry RUNTIME_CACHE (url fontRequest) fontStorage = None)
    by (vm_compute; reflexivity).
  pose proof (staleWhileRevalidate_miss offlineNetwork fontRequest RUNTIME_CACHE
                fontStorage Hmiss) as Hout.
  cbn zeta in Hout.
  change (offlineNetwork (url fontRequest)) with NetworkError in Hout.
  exact (proj1 Hout).
Defined.

(** X11. Revalidation takes effect on the next request.  With a stale entry
    in the target cache, stale-while-revalidate returns the stale entry now;
    afterwards the target cache holds the network's response if that was 2xx,
    and the stale entry otherwise, and that is what every later
    stale-while-revalidate for the request returns first. *)
Theorem staleWhileRevalidate_refresh network request cacheName s stale :
  entry cacheName (url request) s = Some stale →
  let first := staleWhileRevalidate network request cacheName s in
  let next :=
    match network (url request) with
    | Responded r => if ok r then r else stale
    | NetworkError => stale
    end in
  resultOf first = Ok stale ∧
  entry cacheName (url request) (storageOf first) = Some next ∧
  ∀ later,
    resultOf (staleWhileRevalidate later request cacheName (storageOf first)) = Ok next.
Proof.
  intros Hhit. cbn zeta.
  split; [by apply staleWhileRevalidate_serves|].
  assert (Hnext : entry cacheName (url request)
            (storageOf (staleWhileRevalidate network request cacheName s))
          = Some match network (url request) with
                 | Responded r => if ok r then r else stale
                 | NetworkError => stale
                 end).
  { rewrite staleWhileRevalidate_unfold. cbn zeta.
    destruct (network (url request)) as [|r]; cbn [storageOf fst snd].
    - by rewrite entry_open.
    - destruct (ok r); cbn [storageOf fst snd].
      + apply entry_put_open.
      + by rewrite entry_open. }
  split; [exact Hnext|].
  intros later. by apply staleWhileRevalidate_serves.
Qed.

Lemma staleWhileRevalidate_refresh_witness :
  resultOf (staleWhileRevalidate bundleNetwork scriptRequest RUNTIME_CACHE staleScriptStorage)
  = Ok oldBundle ∧
  resultOf (staleWhileRevalidate offlineNetwork scriptRequest RUNTIME_CACHE
              (storageOf (staleWhileRevalidate bundleNetwork scriptRequest RUNTIME_CACHE
                            staleScriptStorage)))
  = Ok bundle.
Proof.
  assert (Hhit : entry RUNTIME_CACHE (url scriptRequest) staleScriptStorage = Some oldBundle)
    by (vm_compute; reflexivity).
  destruct (staleWhileRevalidate_refresh bundleNetwork scriptRequest RUNTIME_CACHE
              staleScriptStorage oldBundle Hhit) as (Hnow & _ & Hlater).
  split; [exact Hnow|]. apply (Hlater offlineNetwork).
Defined.

(** ** The lifecycle as a whole *)

Lemma storage_lookup_None name (s : CacheStorage) :
  storage_lookup name s = None ↔ name ∉ s.*1.
Proof.
  induction s as [|[n c] s IH]; simpl.
  - split; [intros _; apply not_elem_of_nil | done].
  - rewrite not_elem_of_cons. case_decide; [split; [done | intros [Hne _]; by subst]|].
    rewrite IH. split; [by split | by intros [_ Hnot]].
Qed.

Lemma storage_lookup_delete name gone (s : CacheStorage) :
  storage_lookup name (storage_delete gone s) =
  if decide (name = gone) then None else storage_lookup name s.
Proof.
  unfold storage_delete. induction s as [|[n c] s IH]; simpl.
  - by case_decide.
  - rewrite filter_cons. simpl. destruct (decide (n ≠ gone)) as [Hkeep|Hgone]; simpl.
    + destruct (decide (n = name)) as [->|Hne].
      * by destruct (decide (name = gone)).
      * exact IH.
    + apply dec_stable in Hgone. subst n.
      destruct (decide (gone = name)) as [->|Hne].
      * rewrite IH. by destruct (decide (name = name)).
      * exact IH.
Qed.

Lemma storage_lookup_deleteAll name names (s : CacheStorage) :
  storage_lookup name (deleteAll names s) =
  if decide (name ∈ names) then None else storage_lookup name s.
Proof.
  revert s. induction names as [|n names IH]; intros s.
  - simpl. destruct (decide (name ∈ [])) as [Hin|_]; [|done].
    by apply elem_of_nil in Hin.
  - change (deleteAll (n :: names) s) with (deleteAll names (storage_delete n s)).
    rewrite IH, storage_lookup_delete.
    destruct (decide (name ∈ names)) as [Hin|Hnot].
    + destruct (decide (name ∈ n :: names)) as [_|Hno]; [done|].
      destruct Hno. by right.
    + destruct (decide (name = n)) as [->|Hne].
      * destruct (decide (n ∈ n :: names)) as [_|Hno]; [done|]. destruct Hno. by left.
      * destruct (decide (name ∈ n :: names)) as [Hin|_]; [|done].
        apply elem_of_cons in Hin as [Heq|Hin]; [by destruct Hne | by destruct Hnot].
Qed.

Lemma storage_lookup_activated name (s : CacheStorage) :
  storage_lookup name (storageOf (onActivate s)) =
  if staleName name then None else storage_lookup name s.
Proof.
  rewrite onActivate_unfold. cbn [storageOf fst snd]. rewrite storage_lookup_deleteAll.
  destruct (decide (name ∈ List.filter staleName s.*1)) as [Hin|Hnot].
  - apply list_elem_of_In, filter_In in Hin as [_ ->]. done.
  - destruct (staleName name) eqn:Hstale; [|done].
    apply storage_lookup_None. intros Hin. apply Hnot.
    apply list_elem_of_In, filter_In. split; [by apply list_elem_of_In | done].
Qed.

Lemma staleName_current name : staleName name = false ↔ currentName name.
Proof.
  unfold staleName, currentName.
  destruct (decide (name = CACHE_NAME)) as [->|Hc]; [by split; [left|]|].
  destruct (decide (name = RUNTIME_CACHE)) as [->|Hr]; [by split; [right|]|].
  rewrite !bool_decide_eq_true_2 by done. split; [done | by intros [?|?]].
Qed.

Lemma holder_lookup key name (s : CacheStorage) :
  holder key s = Some name → is_Some (storage_lookup name s).
Proof.
  induction s as [|[n c] s IH]; simpl; [done|].
  destruct (c !! key).
  - intros [= ->]. destruct (decide (name = name)); [eauto | done].
  - intros Hrest. case_decide; eauto.
Qed.

Lemma putAll_entry_frame name' key name ps (s : CacheStorage) :
  name' ≠ name ∨ key ∉ ps.*1 →
  entry name' key (putAll name ps s) = entry name' key s.
Proof.
  revert s. induction ps as [|[k v] ps IH]; intros s Hframe; [done|].
  rewrite putAll_cons, IH.
  - simpl. rewrite entry_put.
    destruct (decide (name' = name ∧ key = k)) as [[-> ->]|_]; [|done].
    destruct Hframe as [Hne|Hnot]; [done|]. destruct Hnot. by left.
  - destruct Hframe as [Hne|Hnot]; [by left | right].
    intros Hin. apply Hnot. by right.
Qed.

Lemma stored_keys network key urls :
  key ∈ (stored network urls).*1 ↔ key ∈ urls ∧ fetchedOk network key = true.
Proof.
  rewrite list_elem_of_fmap. unfold fetchedOk. split.
  - intros ([k r] & -> & Hin). apply elem_of_stored in Hin as (Hin & Hnet & Hok).
    simpl. by rewrite Hnet.
  - intros [Hin Hok]. destruct (network key) as [|r] eqn:Hnet; [done|].
    exists (key, r). split; [done|]. by apply elem_of_stored.
Qed.

(** X12. Install followed by activate leaves the worker with exactly what
    it needs: every manifest URL whose fetch gave a 2xx response is held by
    the precache store, no cache of another generation remains, and the cache
    that answers [caches.match] for any URL is one of the two current ones. *)
Theorem install_then_activate network resolve manifest s :
  let installed := storageOf (onInstall network resolve manifest s) in
  let active := storageOf (onActivate installed) in
  (∀ u r, u ∈ manifest → network (resolve u) = Responded r → ok r = true →
     entry CACHE_NAME (resolve u) active = Some r) ∧
  (∀ name, staleName name = true → storage_lookup name active = None) ∧
  (∀ key name, holder key active = Some name → currentName name).
Proof.
  cbn zeta. split; [|split].
  - intros u r Hin Hnet Hok. unfold entry. rewrite storage_lookup_activated.
    change (staleName CACHE_NAME) with false. cbn iota.
    rewrite onInstall_unfold. cbn [storageOf fst snd]. apply putAll_entry.
    + intros r' Hr'. apply elem_of_stored in Hr' as (_ & Hnet' & _). congruence.
    + apply storage_lookup_open.
    + left. apply elem_of_stored. split; [|done]. apply list_elem_of_fmap. by exists u.
  - intros name Hstale. by rewrite storage_lookup_activated, Hstale.
  - intros key name Hholder. apply holder_lookup in Hholder as [c Hc].
    rewrite storage_lookup_activated in Hc.
    destruct (staleName name) eqn:Hstale; [done|]. by apply staleName_current.
Qed.

Lemma install_then_activate_witness :
  entry CACHE_NAME "https://openclaw.app/a"
    (storageOf (onActivate (storageOf (onInstall flakyNetwork resolveApp ["/a"; "/b"]
                                         previousStorage))))
  = Some bundle ∧
  storage_lookup "openclaw-v1"
    (storageOf (onActivate (storageOf (onInstall flakyNetwork resolveApp ["/a"; "/b"]
                                         previousStorage))))
  = None.
Proof.
  destruct (install_then_activate flakyNetwork resolveApp ["/a"; "/b"] previousStorage)
    as (Hkept & Hgone & _).
  split.
  - apply (Hkept "/a"); [left | reflexivity | reflexivity].
  - apply Hgone. vm_compute. reflexivity.
Defined.

(** X13. Installing changes nothing but the precache entries of the manifest
    URLs it fetched successfully: every other entry of every cache, the
    entry of a manifest URL whose fetch failed included, is what it was
    before, and nothing is deleted. *)
Theorem install_frame network resolve manifest s :
  let out := onInstall network resolve manifest s in
  (∀ name key,
     name ≠ CACHE_NAME ∨
     ¬ (key ∈ map resolve manifest ∧ fetchedOk network key = true) →
     entry name key (storageOf out) = entry name key s) ∧
  deletions (effectsOf out) = [].
Proof.
  cbn zeta. rewrite onInstall_unfold. cbn [storageOf effectsOf fst snd]. split.
  - intros name key Hframe. rewrite putAll_entry_frame; [apply entry_open|].
    destruct Hframe as [Hne|Hnot]; [by left | right].
    by rewrite stored_keys.
  - change (deletions (?x :: ?t)) with (deletions t). rewrite deletions_app.
    cbn [deletions omap]. rewrite app_nil_r.
    induction manifest as [|u manifest IH]; [done|].
    cbn [flat_map]. rewrite deletions_app, IH.
    unfold addTrace. destruct (network (resolve u)) as [|r]; [done|]. by destruct (ok r).
Qed.

Lemma install_frame_witness :
  entry CACHE_NAME "https://openclaw.app/"
    (storageOf (onInstall offlineNetwork resolveApp PRECACHE_URLS shellStorage))
  = Some homeDocument.
Proof.
  destruct (install_frame offlineNetwork resolveApp PRECACHE_URLS shellStorage)
    as [Hframe _].
  rewrite Hframe; [vm_compute; reflexivity|].
  right. intros [_ Hok]. discriminate Hok.
Defined.

(** ** What every run of the worker keeps *)

Lemma runEvents_snoc events e s :
  runEvents (events ++ [e]) s = storageAfter e.1.1 e.1.2 e.2 (runEvents events s).
Proof. unfold runEvents. by rewrite foldl_app. Qed.

(** X14. Starting from an empty storage, after any sequence of install,
    activate, fetch and message events, under any networks, every response
    held by any cache has a 2xx status; so whatever the worker serves from
    its caches is a successful response. *)
Theorem worker_caches_only_2xx events :
  allStoredOk (runEvents events []) ∧
  ∀ key r, storage_match key (runEvents events []) = Some r → ok r = true.
Proof.
  assert (Hall : allStoredOk (runEvents events [])).
  { induction events as [|e events IH] using rev_ind; [constructor|].
    rewrite runEvents_snoc. by apply storageAfter_allStoredOk. }
  split; [exact Hall|]. intros key r Hmatch. by eapply allStoredOk_match.
Qed.

Lemma worker_caches_only_2xx_witness :
  storage_match "https://openclaw.app/"
    (runEvents [(jsonRootNetwork, resolveApp, InstallEvent PRECACHE_URLS);
                (offlineNetwork, resolveApp, FetchEvent pageRequest)] [])
  = Some jsonRoot ∧
  ok jsonRoot = true.
Proof.
  assert (Hheld : storage_match "https://openclaw.app/"
            (runEvents [(jsonRootNetwork, resolveApp, InstallEvent PRECACHE_URLS);
                        (offlineNetwork, resolveApp, FetchEvent pageRequest)] [])
          = Some jsonRoot) by (vm_compute; reflexivity).
  split; [exact Hheld|].
  exact (proj2 (worker_caches_only_2xx
                  [(jsonRootNetwork, resolveApp, InstallEvent PRECACHE_URLS);
                   (offlineNetwork, resolveApp, FetchEvent pageRequest)])
           "https://openclaw.app/" jsonRoot Hheld).
Defined.

Lemma putAll_names name ps (s : CacheStorage) : (putAll name ps s).*1 = s.*1.
Proof.
  revert s. induction ps as [|p ps IH]; intros s; [done|].
  by rewrite putAll_cons, IH, storage_put_names.
Qed.

Lemma storage_delete_names name (s : CacheStorage) :
  (storage_delete name s).*1 `sublist_of` s.*1.
Proof.
  unfold storage_delete. induction s as [|[n c] s IH]; [done|].
  rewrite filter_cons. simpl. case_decide; simpl.
  - by apply sublist_skip.
  - by apply sublist_cons.
Qed.

Lemma deleteAll_names names (s : CacheStorage) :
  (deleteAll names s).*1 `sublist_of` s.*1.
Proof.
  revert s. induction names as [|n names IH]; intros s; [done|].
  change (deleteAll (n :: names) s) with (deleteAll names (storage_delete n s)).
  etrans; [apply IH | apply storage_delete_names].
Qed.

Lemma twoStores_sublist (s s' : CacheStorage) :
  s'.*1 `sublist_of` s.*1 → twoStores s → twoStores s'.
Proof.
  intros Hsub [Hdup Hcur]. split; [by eapply sublist_NoDup|].
  rewrite Forall_forall in *. intros name Hin. apply Hcur. by eapply elem_of_sublist.
Qed.

Lemma twoStores_names (s s' : CacheStorage) : s'.*1 = s.*1 → twoStores s → twoStores s'.
Proof. unfold twoStores. by intros ->. Qed.

Lemma twoStores_open name (s : CacheStorage) :
  currentName name → twoStores s → twoStores (storage_open name s).
Proof.
  intros Hcur [Hdup Hall].
  destruct (storage_open_names name s) as [Hsame|[Hnone Hnew]]; unfold twoStores.
  - by rewrite Hsame.
  - rewrite Hnew. split.
    + apply NoDup_app. split; [done|]. split; [|apply NoDup_singleton].
      intros n Hin Hn. apply list_elem_of_singleton in Hn as ->.
      by apply storage_lookup_None in Hnone.
    + apply Forall_app. split; [done|]. by constructor.
Qed.

Lemma twoStores_shape network request cacheName s s' t :
  currentName cacheName →
  WriteShape network request cacheName s s' t → twoStores s → twoStores s'.
Proof.
  intros Hcur [s1 t1 [->| ->] _ | r t1 _ _ _] Hs; [done | by apply twoStores_open |].
  eapply twoStores_names; [apply storage_put_names | by apply twoStores_open].
Qed.

Lemma storageAfter_twoStores network resolve ev s :
  twoStores s → twoStores (storageAfter network resolve ev s).
Proof.
  intros Hs. destruct ev as [manifest| |request|data]; simpl.
  - rewrite onInstall_unfold. cbn [storageOf fst snd].
    eapply twoStores_names; [apply putAll_names|]. apply twoStores_open; [by left | done].
  - rewrite onActivate_unfold. cbn [storageOf fst snd].
    eapply twoStores_sublist; [apply deleteAll_names | done].
  - rewrite onFetch_classify.
    destruct (classify request); [done|..]; rewrite fmap_Some_run; cbn [storageOf fst snd].
    + eapply (twoStores_shape network request CACHE_NAME); [by left | | done].
      apply (executors_shape network resolve (cacheFirst network)). left.
    + eapply (twoStores_shape network request CACHE_NAME); [by left | | done].
      apply (executors_shape network resolve (networkFirst network resolve)). right; left.
    + eapply (twoStores_shape network request RUNTIME_CACHE); [by right | | done].
      apply (executors_shape network resolve (staleWhileRevalidate network)).
      right; right; left.
    + eapply (twoStores_shape network request RUNTIME_CACHE); [by right | | done].
      apply (executors_shape network resolve (networkFirst network resolve)). right; left.
  - destruct data as [|urls|]; [done| |done].
    destruct (onMessage_prime_unfold network resolve urls s) as (e & fetched & -> & _).
    destruct (batchAccepted network (map resolve urls)); cbn [storageOf fst snd].
    + eapply twoStores_names; [apply putAll_names|]. apply twoStores_open; [by right | done].
    + apply twoStores_open; [by right | done].
Qed.

(** X15. The worker only ever works with its two generation-qualified
    stores: starting from an empty storage, after any sequence of events the
    caches that exist have distinct names, each of them the precache or the
    runtime name of the current generation. *)
Theorem worker_uses_two_stores events :
  NoDup ((runEvents events []).*1) ∧
  Forall currentName ((runEvents events []).*1).
Proof.
  change (twoStores (runEvents events [])).
  induction events as [|e events IH] using rev_ind.
  - split; [apply NoDup_nil_2 | constructor].
  - rewrite runEvents_snoc. by apply storageAfter_twoStores.
Qed.

Example worker_run_names :
  (runEvents [(flakyNetwork, resolveApp, InstallEvent ["/a"; "/b"]);
              (flakyNetwork, resolveApp, MessageEvent (CACHE_URLS ["/a"]));
              (flakyNetwork, resolveApp, ActivateEvent);
              (offlineNetwork, resolveApp, FetchEvent scriptRequest)] []).*1
  = [CACHE_NAME; RUNTIME_CACHE].
Proof. vm_compute. reflexivity. Qed.

(** ** Push notifications *)

Lemma orDefault_nonempty v d : d ≠ "" → orDefault v d ≠ "".
Proof. intros Hd. by destruct v as [[|a x]|]. Qed.

Lemma orDefault_given x d : x ≠ "" → orDefault (Some x) d = x.
Proof. intros Hx. by destruct x. Qed.

Lemma orDefault_again v d : orDefault (Some (orDefault v d)) d = orDefault v d.
Proof.
  destruct v as [[|a x]|]; simpl; [by destruct d | done | by destruct d].
Qed.

Lemma orDefault_missing v d : v = None ∨ v = Some "" → orDefault v d = d.
Proof. by intros [->| ->]. Qed.

(** X16. For a push whose data is absent or parses to an object whose
    [title], [body] and [url] are each a string or absent: each of the three
    is shown as it is when it is a non-empty string, and is replaced by its
    default (["OpenClaw AI"], ["You have a new message"], ["/"]) when it is
    absent or empty, the whole payload being absent included; so none of
    them is ever empty.  Icon, badge, tag and renotify are fixed. *)
Theorem onPush_defaults eventData :
  let n := onPush eventData in
  let title := eventData ≫= pushTitle in
  let body := eventData ≫= pushBody in
  let target := eventData ≫= pushUrl in
  ((∀ t, title = Some t → t ≠ "" → notifTitle n = t) ∧
   (title = None ∨ title = Some "" → notifTitle n = "OpenClaw AI")) ∧
  ((∀ b, body = Some b → b ≠ "" → notifBody n = b) ∧
   (body = None ∨ body = Some "" → notifBody n = "You have a new message")) ∧
  ((∀ u, target = Some u → u ≠ "" → notifUrl n = u) ∧
   (target = None ∨ target = Some "" → notifUrl n = "/")) ∧
  (notifTitle n ≠ "" ∧ notifBody n ≠ "" ∧ notifUrl n ≠ "") ∧
  notifIcon n = "/icons/icon-192.png" ∧ notifBadge n = "/icons/badge-72.png" ∧
  notifTag n = "openclaw-notification" ∧ notifRenotify n = true.
Proof.
  cbn zeta.
  assert (Hshown :
    notifTitle (onPush eventData) = orDefault (eventData ≫= pushTitle) "OpenClaw AI" ∧
    notifBody (onPush eventData)
      = orDefault (eventData ≫= pushBody) "You have a new message" ∧
    notifUrl (onPush eventData) = orDefault (eventData ≫= pushUrl) "/")
    by by destruct eventData.
  destruct Hshown as (-> & -> & ->).
  repeat split; try done;
    try (intros x -> Hx; by apply orDefault_given);
    try (by apply orDefault_missing);
    by apply orDefault_nonempty.
Qed.

Lemma onPush_defaults_witness :
  notifTitle (onPush (Some (mkPushData (Some "Reply ready") (Some "") None))) = "Reply ready" ∧
  notifBody (onPush (Some (mkPushData (Some "Reply ready") (Some "") None)))
    = "You have a new message" ∧
  notifUrl (onPush (Some (mkPushData (Some "Reply ready") (Some "") None))) = "/".
Proof.
  destruct (onPush_defaults (Some (mkPushData (Some "Reply ready") (Some "") None)))
    as ((Htitle & _) & (_ & Hbody) & (_ & Htarget) & _).
  split; [|split].
  - by apply Htitle.
  - apply Hbody. by right.
  - apply Htarget. by left.
Defined.

(** X17. Clicking the notification shown for a push closes it and then
    opens exactly one window: at the payload's [url] when that is a
    non-empty string, and at ["/"] when the payload has no [url], an empty
    one, or is absent. *)
Theorem push_then_click eventData :
  onNotificationClick (onPush eventData) =
  [CloseNotification; OpenWindow (orDefault (eventData ≫= pushUrl) "/")] ∧
  (∀ data u, eventData = Some data → pushUrl data = Some u → u ≠ "" →
     onNotificationClick (onPush eventData) = [CloseNotification; OpenWindow u]).
Proof.
  assert (Hclick : onNotificationClick (onPush eventData) =
            [CloseNotification; OpenWindow (orDefault (eventData ≫= pushUrl) "/")]).
  { unfold onNotificationClick, onPush. cbn [notifUrl]. rewrite orDefault_again.
    by destruct eventData. }
  split; [exact Hclick|].
  intros data u -> Hu Hne. rewrite Hclick. simpl. rewrite Hu. by rewrite orDefault_given.
Qed.

Lemma push_then_click_witness :
  onNotificationClick (onPush (Some (mkPushData None None (Some "/chat/42"))))
  = [CloseNotification; OpenWindow "/chat/42"].
Proof.
  apply (proj2 (push_then_click (Some (mkPushData None None (Some "/chat/42"))))
           (mkPushData None None (Some "/chat/42")) "/chat/42"); [reflexivity.. | discriminate].
Defined.

(** ** The control channel *)

(** X18. The message handler never throws to its sender and never touches a
    cache other than the runtime store.  [SKIP_WAITING] does nothing but call
    [skipWaiting]; a message of any other unknown kind does nothing at all;
    and priming the runtime store never calls [skipWaiting]. *)
Theorem onMessage_footprint network resolve data s :
  let out := onMessage network resolve data s in
  resultOf out = Ok tt ∧
  (∀ name key, name ≠ RUNTIME_CACHE →
     entry name key (storageOf out) = entry name key s) ∧
  match data with
  | SKIP_WAITING => storageOf out = s ∧ effectsOf out = [SkipWaiting]
  | CACHE_URLS _ => SkipWaiting ∉ effectsOf out
  | OtherMessage => storageOf out = s ∧ effectsOf out = []
  end.
Proof.
  cbn zeta. destruct data as [|urls|]; [done| |done].
  destruct (onMessage_prime_unfold network resolve urls s) as (e & fetched & -> & _).
  destruct (batchAccepted network (map resolve urls));
    cbn [resultOf storageOf effectsOf fst snd]; (split; [done|]); split.
  - intros name key Hne. rewrite putAll_entry_frame; [apply entry_open | by left].
  - rewrite elem_of_app, !list_elem_of_fmap.
    intros [(u & Hu & _)|(p & Hp & _)]; discriminate.
  - intros name key Hne. apply entry_open.
  - rewrite elem_of_app, list_elem_of_fmap, list_elem_of_singleton.
    intros [(u & Hu & _)|Hu]; discriminate.
Qed.

Lemma onMessage_footprint_witness :
  entry CACHE_NAME "https://openclaw.app/"
    (storageOf (onMessage bundleNetwork resolveApp (CACHE_URLS ["/"; "/index.html"])
                  shellStorage))
  = Some homeDocument.
Proof.
  destruct (onMessage_footprint bundleNetwork resolveApp (CACHE_URLS ["/"; "/index.html"])
              shellStorage) as (_ & Hframe & _).
  rewrite Hframe; [vm_compute; reflexivity | discriminate].
Defined.
